(** * The data-analysis agent of Data_Analysis_agent.ipynb

    A shallow embedding of the notebook's router ([run_agent],
    [handle_tool_calls]) and of its three tools ([lookup_sales_data],
    [analyze_sales_data], [generate_visualization]), followed by the
    properties of the orchestration loop.

    The notebook talks to three outside parties: the OpenAI client, pandas
    and DuckDB.  They are gathered in a record [World] of oracles.  Every
    oracle receives the trace of the calls made so far, so that an oracle may
    answer the same request differently at different times. *)

From Stdlib Require Import ZArith Lia Ascii.
From stdpp Require Import base option list strings pretty gmap.

Set Warnings "-register-all".

(** ** Python values *)

(** The values that travel through the notebook: what [json.loads] builds,
    what the tools receive as keyword arguments, and the objects whose
    attributes [extract_chart_config] reads.  A [dict] with string keys is a
    [gmap]; [PObj] is an instance of a class with the given attributes. *)
Inductive pyval : Type :=
| PNone
| PBool (b : bool)
| PInt (z : Z)
| PFloat (literal : string)
| PStr (s : string)
| PList (l : list pyval)
| PDict (d : gmap string pyval)
| PObj (cls : string) (attrs : gmap string pyval).

Abbreviation pydict := (gmap string pyval).

(** [type(v).__name__] *)
Definition type_name (v : pyval) : string :=
  match v with
  | PNone => "NoneType"
  | PBool _ => "bool"
  | PInt _ => "int"
  | PFloat _ => "float"
  | PStr _ => "str"
  | PList _ => "list"
  | PDict _ => "dict"
  | PObj cls _ => cls
  end.

(** ** Exceptions *)

(** Exceptions, all of class [Exception].  The first four are raised by the
    interpreter at places of the notebook itself: a missing dictionary key,
    a call whose keyword arguments do not bind, a missing attribute, an index
    out of range.  [Raised cls msg] is an exception of class [cls] raised
    inside an outside party (the client, the JSON decoder, pandas, DuckDB)
    with [str(e) = msg]. *)
Inductive exn : Type :=
| KeyError (key : string)
| TypeError (callee : string) (args : pyval)
| AttributeError (ty attr : string)
| IndexError
| Raised (cls msg : string).

(** [type(e).__name__] *)
Definition exn_class (e : exn) : string :=
  match e with
  | KeyError _ => "KeyError"
  | TypeError _ _ => "TypeError"
  | AttributeError _ _ => "AttributeError"
  | IndexError => "IndexError"
  | Raised cls _ => cls
  end.

(** ** Messages, tool calls and responses *)

(** [tool_call.function] *)
Record tool_function := ToolFunction {
  name : string;
  arguments : string
}.

(** One entry of [message.tool_calls]; [call_id] is the attribute [id]. *)
Record tool_call := ToolCall {
  call_id : string;
  function : tool_function
}.

(** [response.choices[0].message] of [client.chat.completions.create]. *)
Record chat_message := ChatMessage {
  content : option string;
  tool_calls : option (list tool_call)
}.

(** The elements of the list [messages]: a dict (as the notebook builds
    them, and as a caller passes them), or the message object of a response,
    which [run_agent] appends as it is. *)
Inductive message : Type :=
| MDict (d : pydict)
| MResp (m : chat_message).

(** [{"role": "user", "content": q}] *)
Definition user_message (q : string) : message :=
  MDict (<["role" := PStr "user"]> (<["content" := PStr q]> ∅)).

(** [{"role": "system", "content": text}] *)
Definition system_message (text : string) : message :=
  MDict (<["role" := PStr "system"]> (<["content" := PStr text]> ∅)).

(** [{"role": "tool", "content": result, "tool_call_id": id}] *)
Definition tool_message (result : string) (id : string) : message :=
  MDict (<["role" := PStr "tool"]>
        (<["content" := PStr result]>
        (<["tool_call_id" := PStr id]> ∅))).

(** [response.choices] of [create]. *)
Record response := Response { choices : list chat_message }.

(** [response.choices] of [client.beta.chat.completions.parse]: the notebook
    reads attributes off [message.content], so the content is any value. *)
Record parsed_response := ParsedResponse { parsed_choices : list pyval }.

(** What [pd.read_parquet] returns, as far as the notebook looks at it. *)
Record dataframe := DataFrame { columns : pyval }.

(** One entry of the list [tools] declared to the engine: the name and the
    description of the function, the names and types of its properties
    (their descriptions are left out) and the required ones. *)
Record tool_spec := ToolSpec {
  spec_name : string;
  spec_description : string;
  spec_properties : list (string * string);
  spec_required : list string
}.

(** ** Calls to the outside, and the world that answers them *)

Inductive event : Type :=
| EvCreate (msgs : list message) (declared : option (list tool_spec))
| EvParse (msgs : list message)
| EvReadParquet (path : string)
| EvSql (query : string)
| EvInvoke (fname : string) (kwargs : pydict).

Abbreviation trace := (list event).

(** An outside party either returns or raises an exception of its own. *)
Definition answer (A : Type) : Type := (string * string) + A.

Record World := {
  (** [client.chat.completions.create(model=MODEL, messages=.., tools=..)] *)
  chat_create : trace -> list message -> option (list tool_spec) -> answer response;
  (** [client.beta.chat.completions.parse(.., response_format=VisualizationConfig)] *)
  chat_parse : trace -> list message -> answer parsed_response;
  (** [pd.read_parquet(path)] *)
  read_parquet : trace -> string -> answer dataframe;
  (** [duckdb.sql(query)], and for a query [.df().to_string()] of its result *)
  duckdb_sql : trace -> string -> answer string;
  (** [json.loads(text)]; it builds no [PObj] *)
  json_loads : string -> answer pyval;
  (** [str(v)] for a value that is not a [str] *)
  str_of : pyval -> string;
  (** [str(e)] for a [KeyError] and for the [TypeError] of a call that does
      not bind: the [repr] of the key, and a text that depends on the
      interpreter's version *)
  interpreter_text : exn -> string
}.

(** ** The monad of the notebook's code *)

(** A computation over a store [S] returns a value or raises. *)
Inductive result (A : Type) : Type :=
| Ok (a : A)
| Raise (e : exn).
Arguments Ok {A} a.
Arguments Raise {A} e.

Definition M (S A : Type) : Type := S -> result A * S.

Definition ret {S A} (a : A) : M S A := fun s => (Ok a, s).

Definition raise {S A} (e : exn) : M S A := fun s => (Raise e, s).

Definition bind {S A B} (m : M S A) (k : A -> M S B) : M S B :=
  fun s =>
    match m s with
    | (Ok a, s') => k a s'
    | (Raise e, s') => (Raise e, s')
    end.

(** [try: body / except Exception as e: handler e] *)
Definition try_except {S A} (body : M S A) (handler : exn -> M S A) : M S A :=
  fun s =>
    match body s with
    | (Raise e, s') => handler e s'
    | r => r
    end.

Declare Scope py_scope.
Delimit Scope py_scope with py.
Notation "x <- m ;; k" := (bind m (fun x => k))
  (at level 100, m at next level, right associativity) : py_scope.
Notation "m ;;; k" := (bind m (fun _ => k))
  (at level 100, right associativity) : py_scope.
Open Scope py_scope.

(** A call to an outside party: the request is logged, then answered. *)
Definition external {A} (ev : event) (ask : trace -> answer A) : M trace A :=
  fun tr =>
    match ask tr with
    | inl (cls, msg) => (Raise (Raised cls msg), tr ++ [ev])
    | inr a => (Ok a, tr ++ [ev])
    end.

(** A pure library call that may raise. *)
Definition pure_call {S A} (r : answer A) : M S A :=
  match r with
  | inl (cls, msg) => raise (Raised cls msg)
  | inr a => ret a
  end.

(** [xs[0]] *)
Definition first_of {S A} (xs : list A) : M S A :=
  match xs with
  | [] => raise IndexError
  | x :: _ => ret x
  end.

(** ** Strings *)

(** Strings are sequences of code points below 256.  [isspace] is Python's
    [str.isspace] on one such code point. *)
Definition isspace (c : ascii) : bool :=
  let n := nat_of_ascii c in
  ((9 <=? n) && (n <=? 13)) || ((28 <=? n) && (n <=? 32)) || (n =? 133) || (n =? 160).

Fixpoint lstrip (s : string) : string :=
  match s with
  | EmptyString => EmptyString
  | String c s' => if isspace c then lstrip s' else s
  end.

Fixpoint rstrip (s : string) : string :=
  match s with
  | EmptyString => EmptyString
  | String c s' =>
      match rstrip s' with
      | EmptyString => if isspace c then EmptyString else String c EmptyString
      | r => String c r
      end
  end.

(** [s.strip()] *)
Definition strip (s : string) : string := rstrip (lstrip s).

(** [replace_from old new skip s] copies [s], leaving out its first [skip]
    characters and putting [new] for every occurrence of [old] found from
    left to right in the rest. *)
Fixpoint replace_from (old new : string) (skip : nat) (s : string) : string :=
  match s with
  | EmptyString => EmptyString
  | String c s' =>
      match skip with
      | S k => replace_from old new k s'
      | O =>
          if String.prefix old s
          then new +:+ replace_from old new (String.length old - 1) s'
          else String c (replace_from old new 0 s')
      end
  end.

(** [s.replace(old, new)]; with an empty [old], [new] goes before every
    character and at the end. *)
Definition replace (old new s : string) : string :=
  match old with
  | EmptyString =>
      new +:+ String.concat EmptyString
                (map (fun c => String c new) (String.list_ascii_of_string s))
  | _ => replace_from old new 0 s
  end.

Definition nl : string := String (ascii_of_nat 10) EmptyString.

(** ** The tools *)

Section Tools.
Variable W : World.

(** [str(v)], and what [str.format] puts for a field [{v}]. *)
Definition py_str (v : pyval) : string :=
  match v with
  | PStr s => s
  | _ => str_of W v
  end.

(** [str(e)] *)
Definition exn_str (e : exn) : string :=
  match e with
  | AttributeError ty attr =>
      "'" +:+ ty +:+ "' object has no attribute '" +:+ attr +:+ "'"
  | IndexError => "list index out of range"
  | Raised _ msg => msg
  | KeyError _ | TypeError _ _ => interpreter_text W e
  end.

(** [client.chat.completions.create(model=MODEL, messages=msgs)], with
    [tools=declared] when the router calls. *)
Definition chat_completions_create (msgs : list message)
    (declared : option (list tool_spec)) : M trace response :=
  external (EvCreate msgs declared) (fun tr => chat_create W tr msgs declared).

(** [response.choices[0].message.content] of a call with the single user
    message [formatted_prompt]: the shape of all three generation steps. *)
Definition ask_model (formatted_prompt : string) : M trace (option string) :=
  response <- chat_completions_create [user_message formatted_prompt] None;;
  msg <- first_of (choices response);;
  ret (content msg).

(** *** Tool 1: database lookup *)

Definition TRANSACTION_DATA_FILE_PATH : string :=
  "data/Store_Sales_Price_Elasticity_Promotions_Data.parquet".

Definition SQL_GENERATION_PROMPT (prompt columns table_name : string) : string :=
  nl +:+ "Generate an SQL query based on a prompt. Do not reply with anything besides the SQL query."
  +:+ nl +:+ "The prompt is: " +:+ prompt +:+ nl
  +:+ nl +:+ "The available columns are: " +:+ columns
  +:+ nl +:+ "The table name is: " +:+ table_name +:+ nl.

Definition generate_sql_query (prompt columns : pyval) (table_name : string)
  : M trace (option string) :=
  let formatted_prompt :=
    SQL_GENERATION_PROMPT (py_str prompt) (py_str columns) table_name in
  ask_model formatted_prompt.

(** A method of [str] called on [response...content], which is [None]
    when the model gave no text. *)
Definition str_method {S} (attr : string) (f : string -> string)
    (o : option string) : M S string :=
  match o with
  | Some s => ret (f s)
  | None => raise (AttributeError "NoneType" attr)
  end.

(** The [try] block of [lookup_sales_data]. *)
Definition lookup_sales_data_try (prompt : pyval) : M trace string :=
  let table_name := "sales" in
  df <- external (EvReadParquet TRANSACTION_DATA_FILE_PATH)
          (fun tr => read_parquet W tr TRANSACTION_DATA_FILE_PATH);;
  let create := "CREATE TABLE IF NOT EXISTS " +:+ table_name
                +:+ " AS SELECT * FROM df" in
  external (EvSql create) (fun tr => duckdb_sql W tr create);;;
  sql_query <- generate_sql_query prompt (columns df) table_name;;
  sql_query <- str_method "strip" strip sql_query;;
  let sql_query := replace "```" "" (replace "```sql" "" sql_query) in
  result <- external (EvSql sql_query) (fun tr => duckdb_sql W tr sql_query);;
  ret result.

Definition lookup_sales_data (prompt : pyval) : M trace string :=
  try_except
    (lookup_sales_data_try prompt)
    (fun e => ret ("Error accessing data: " +:+ exn_str e)).

(** *** Tool 2: data analysis *)

Definition DATA_ANALYSIS_PROMPT (data prompt : string) : string :=
  nl +:+ "Analyze the following data: " +:+ data
  +:+ nl +:+ "Your job is to answer the following question: " +:+ prompt +:+ nl.

Definition analyze_sales_data (prompt data : pyval) : M trace string :=
  let formatted_prompt := DATA_ANALYSIS_PROMPT (py_str data) (py_str prompt) in
  analysis <- ask_model formatted_prompt;;
  ret (match analysis with
       | Some (String c s) => String c s
       | Some EmptyString | None => "No analysis could be generated"
       end).

(** *** Tool 3: data visualization *)

Definition CHART_CONFIGURATION_PROMPT (data visualization_goal : string) : string :=
  nl +:+ "Generate a chart configuration based on this data: " +:+ data
  +:+ nl +:+ "The goal is to show: " +:+ visualization_goal +:+ nl.

(** [content.attr] for an instance; [AttributeError] when it has none. *)
Definition getattr {S} (cls : string) (attrs : pydict) (attr : string) : M S pyval :=
  match attrs !! attr with
  | Some v => ret v
  | None => raise (AttributeError cls attr)
  end.

(** The dictionary both branches of [extract_chart_config] build. *)
Definition chart_config (chart_type x_axis y_axis title data : pyval) : pydict :=
  <["chart_type" := chart_type]>
  (<["x_axis" := x_axis]>
  (<["y_axis" := y_axis]>
  (<["title" := title]>
  (<["data" := data]> ∅)))).

(** The configuration of the [except] branch. *)
Definition default_chart_config (data visualization_goal : pyval) : pydict :=
  chart_config (PStr "line") (PStr "date") (PStr "value") visualization_goal data.

(** The body of the [try]: [content = response.choices[0].message.content],
    then the four attributes in the order the dict display reads them.  A
    value that is no instance ([None], a [str], ...) has no attribute
    [chart_type], the first one read. *)
Definition read_chart_config (response : parsed_response) (data : pyval)
  : M trace pydict :=
  content <- first_of (parsed_choices response);;
  match content with
  | PObj cls attrs =>
      chart_type <- getattr cls attrs "chart_type";;
      x_axis <- getattr cls attrs "x_axis";;
      y_axis <- getattr cls attrs "y_axis";;
      title <- getattr cls attrs "title";;
      ret (chart_config chart_type x_axis y_axis title data)
  | v => raise (AttributeError (type_name v) "chart_type")
  end.

Definition extract_chart_config (data visualization_goal : pyval) : M trace pydict :=
  let formatted_prompt :=
    CHART_CONFIGURATION_PROMPT (py_str data) (py_str visualization_goal) in
  let msgs := [user_message formatted_prompt] in
  response <- external (EvParse msgs) (fun tr => chat_parse W tr msgs);;
  try_except
    (read_chart_config response data)
    (fun _ => ret (default_chart_config data visualization_goal)).

Definition CREATE_CHART_PROMPT (config : string) : string :=
  nl +:+ "Write python code to create a chart based on the following configuration."
  +:+ nl +:+ "Only return the code, no other text."
  +:+ nl +:+ "config: " +:+ config +:+ nl.

Definition create_chart (config : pydict) : M trace string :=
  let formatted_prompt := CREATE_CHART_PROMPT (py_str (PDict config)) in
  code <- ask_model formatted_prompt;;
  code <- str_method "replace"
            (fun code => replace "```" "" (replace "```python" "" code)) code;;
  ret (strip code).

Definition generate_visualization (data visualization_goal : pyval) : M trace string :=
  config <- extract_chart_config data visualization_goal;;
  code <- create_chart config;;
  ret code.

End Tools.

(** ** The router *)

(** The list [tools] passed to the engine on every router call. *)
Definition tools : list tool_spec :=
  [ ToolSpec "lookup_sales_data"
      "Look up data from Store Sales Price Elasticity Promotions dataset"
      [("prompt", "string")] ["prompt"];
    ToolSpec "analyze_sales_data"
      "Analyze sales data to extract insights"
      [("data", "string"); ("prompt", "string")] ["data"; "prompt"];
    ToolSpec "generate_visualization"
      "Generate Python code to create data visualizations"
      [("data", "string"); ("visualization_goal", "string")]
      ["data"; "visualization_goal"] ].

(** A function of the notebook as the router calls it: its parameters (none
    has a default) and its body on the bound keyword arguments. *)
Record pyfunction := PyFunction {
  fn_name : string;
  fn_params : list string;
  fn_body : pydict -> M trace string
}.

(** The value bound to parameter [p]. *)
Definition kwarg (kw : pydict) (p : string) : pyval := default PNone (kw !! p).

(** [function( **function_args)]: the argument must be a mapping whose keys
    are exactly the parameters; the values are passed on unchecked.  The
    entry into the body is logged. *)
Definition call_kwargs (f : pyfunction) (function_args : pyval) : M trace string :=
  match function_args with
  | PDict kw =>
      if bool_decide (dom kw = list_to_set (fn_params f))
      then (fun tr => fn_body f kw (tr ++ [EvInvoke (fn_name f) kw]))
      else raise (TypeError (fn_name f) function_args)
  | _ => raise (TypeError (fn_name f) function_args)
  end.

(** The store of the router: the list [messages], and the trace. *)
Record state := State {
  messages : list message;
  log : trace
}.

(** A computation that cannot see [messages]. *)
Definition lift {A} (m : M trace A) : M state A :=
  fun st =>
    let (r, tr) := m (log st) in
    (r, {| messages := messages st; log := tr |}).

(** [messages.append(msg)] *)
Definition append (msg : message) : M state unit :=
  fun st => (Ok tt, {| messages := messages st ++ [msg]; log := log st |}).

(** [d[key]] *)
Definition getitem {S A} (d : gmap string A) (key : string) : M S A :=
  match d !! key with
  | Some v => ret v
  | None => raise (KeyError key)
  end.

Definition SYSTEM_PROMPT : string :=
  nl +:+ "You are a helpful assistant that can answer questions about the Store Sales Price Elasticity Promotions dataset."
  +:+ nl.

(** [isinstance(message, dict) and message.get("role") == "system"] *)
Definition is_system (m : message) : bool :=
  match m with
  | MDict d =>
      match d !! "role" with
      | Some (PStr role) => bool_decide (role = "system")
      | _ => false
      end
  | MResp _ => false
  end.

(** The check at the start of [run_agent]: the system prompt is appended
    unless some message of the list is a system message. *)
Definition ensure_system_prompt : M state unit :=
  fun st =>
    if negb (existsb is_system (messages st))
    then append (system_message SYSTEM_PROMPT) st
    else (Ok tt, st).

(** [bool(tool_calls)]: the calls when there is at least one. *)
Definition requested (m : chat_message) : list tool_call :=
  match tool_calls m with
  | Some tcs => tcs
  | None => []
  end.

(** How a call of [run_agent] stands after a number of rounds: it has
    returned, it has raised, or it is still in its loop. *)
Inductive run (A : Type) : Type :=
| Returned (a : A)
| Failed (e : exn)
| Running.
Arguments Returned {A} a.
Arguments Failed {A} e.
Arguments Running {A}.

(** What [run_agent] is called with. *)
Inductive agent_input : Type :=
| Text (query : string)
| Messages (msgs : list message).

Section Router.
Variable W : World.

(** The dictionary mapping function names to their implementations. *)
Definition tool_implementations : gmap string pyfunction :=
  <["lookup_sales_data" :=
      PyFunction "lookup_sales_data" ["prompt"]
        (fun kw => lookup_sales_data W (kwarg kw "prompt"))]>
  (<["analyze_sales_data" :=
      PyFunction "analyze_sales_data" ["prompt"; "data"]
        (fun kw => analyze_sales_data W (kwarg kw "prompt") (kwarg kw "data"))]>
  (<["generate_visualization" :=
      PyFunction "generate_visualization" ["data"; "visualization_goal"]
        (fun kw => generate_visualization W (kwarg kw "data")
                     (kwarg kw "visualization_goal"))]> ∅)).

(** The body of the [for] loop of [handle_tool_calls]. *)
Definition handle_tool_call (tool_call : tool_call) : M state unit :=
  fn <- getitem tool_implementations (name (function tool_call));;
  function_args <- pure_call (json_loads W (arguments (function tool_call)));;
  result <- lift (call_kwargs fn function_args);;
  append (tool_message result (call_id tool_call)).

(** [handle_tool_calls(tool_calls, messages)]; the list it returns is the
    list it was given, extended in place. *)
Fixpoint handle_tool_calls (tool_calls : list tool_call) : M state unit :=
  match tool_calls with
  | [] => ret tt
  | tool_call :: rest =>
      handle_tool_call tool_call;;;
      handle_tool_calls rest
  end.

(** One round of [while True]: the router call, the append of the
    response's message, then either the tool calls ([None]: go round
    again) or the final answer ([Some content]). *)
Definition router_step : M state (option (option string)) :=
  response <- (fun st =>
                 lift (chat_completions_create W (messages st) (Some tools)) st);;
  msg <- first_of (choices response);;
  append (MResp msg);;;
  match requested msg with
  | [] => ret (Some (content msg))
  | tcs => handle_tool_calls tcs;;; ret None
  end.

(** [while True], run for at most [fuel] rounds. *)
Fixpoint router_loop (fuel : nat) (st : state) : run (option string) * state :=
  match fuel with
  | O => (Running, st)
  | S fuel' =>
      match router_step st with
      | (Ok (Some answer), st') => (Returned answer, st')
      | (Ok None, st') => router_loop fuel' st'
      | (Raise e, st') => (Failed e, st')
      end
  end.

(** The list [messages] after the [isinstance(messages, str)] test: a text
    is wrapped into a new list, a list is kept (it is the caller's). *)
Definition initial_messages (input : agent_input) : list message :=
  match input with
  | Text query => [user_message query]
  | Messages msgs => msgs
  end.

(** [run_agent(messages)] in a world whose history is [tr]; the calls of
    [print] are left out. *)
Definition run_agent (fuel : nat) (input : agent_input) (tr : trace)
  : run (option string) * state :=
  let st0 := {| messages := initial_messages input; log := tr |} in
  router_loop fuel (ensure_system_prompt st0).2.

End Router.

(** ** Observations on a trace and on a conversation *)

(** The router's calls to the engine are the calls of [create] that declare
    [tools]; the generation steps inside the tools declare none. *)
Definition is_engine_call (ev : event) : bool :=
  match ev with
  | EvCreate _ (Some _) => true
  | _ => false
  end.

Definition engine_calls (tr : trace) : nat :=
  length (List.filter is_engine_call tr).

(** The functions entered through [handle_tool_calls], in order. *)
Definition invocations (tr : trace) : list string :=
  omap (fun ev => match ev with
                  | EvInvoke fname _ => Some fname
                  | _ => None
                  end) tr.

(** The number of system messages of a conversation. *)
Definition system_count (msgs : list message) : nat :=
  length (List.filter is_system msgs).

(** The events a tool produces on its own: anything but a router call and
    an entry through [handle_tool_calls]. *)
Definition internal (ev : event) : bool :=
  match ev with
  | EvCreate _ (Some _) => false
  | EvInvoke _ _ => false
  | _ => true
  end.

(** A computation that only adds internal events to the trace. *)
Definition silent {A} (m : M trace A) : Prop :=
  forall tr, exists evs, (m tr).2 = tr ++ evs /\ forallb internal evs = true.

(** The capability-result messages of the requests [tcs] whose results are
    [results], request by request. *)
Definition result_messages (tcs : list tool_call) (results : list string)
  : list message :=
  zip_with (fun tc result => tool_message result (call_id tc)) tcs results.

(** The names the requests [tcs] ask for. *)
Definition requested_names (tcs : list tool_call) : list string :=
  map (fun tc => name (function tc)) tcs.

(** [messages] after the system-prompt check. *)
Definition with_system_prompt (msgs : list message) : list message :=
  if existsb is_system msgs then msgs else msgs ++ [system_message SYSTEM_PROMPT].

(** The engine asks for at least one capability on every turn. *)
Definition always_requests (W : World) : Prop :=
  forall tr msgs, exists msg rest,
    chat_create W tr msgs (Some tools) = inr (Response (msg :: rest)) /\
    requested msg <> [].

(** Every batch the engine asks for is carried out without an exception. *)
Definition dispatch_returns (W : World) : Prop :=
  forall tr msgs msg rest st,
    chat_create W tr msgs (Some tools) = inr (Response (msg :: rest)) ->
    (handle_tool_calls W (requested msg) st).1 = Ok tt.

(** The store once the response message [msg] of a router call made in
    store [st] has been appended. *)
Definition answered (st : state) (msg : chat_message) : state :=
  {| messages := messages st ++ [MResp msg];
     log := log st ++ [EvCreate (messages st) (Some tools)] |}.

(** The exceptions whose text does not depend on the interpreter. *)
Definition has_own_text (e : exn) : bool :=
  match e with
  | KeyError _ | TypeError _ _ => false
  | AttributeError _ _ | IndexError | Raised _ _ => true
  end.

(** A payload binds to a function when it is an object whose members are
    exactly the function's parameters. *)
Definition binds (f : pyfunction) (function_args : pyval) : Prop :=
  exists kw, function_args = PDict kw /\ dom kw = list_to_set (fn_params f).

(** The system-prompt check applied [n] times. *)
Definition ensure_times (n : nat) (st : state) : state :=
  Nat.iter n (fun s => (ensure_system_prompt s).2) st.

(** The attributes [extract_chart_config] reads off the content. *)
Definition config_attributes : list string :=
  ["chart_type"; "x_axis"; "y_axis"; "title"].

(** A response of [parse] from which a chart configuration can be read: it
    has a first choice, whose content is an instance with the four
    attributes. *)
Definition usable_config (response : parsed_response) : bool :=
  match parsed_choices response with
  | PObj _ attrs :: _ =>
      forallb (fun attr => bool_decide (is_Some (attrs !! attr))) config_attributes
  | _ => false
  end.

(** ** Sample worlds *)

Module Samples.

Definition dq : string := String (ascii_of_nat 34) EmptyString.

(** The JSON text of an object whose members are strings. *)
Definition json_object (members : list (string * string)) : string :=
  "{" +:+ String.concat ", "
            (map (fun kv => dq +:+ kv.1 +:+ dq +:+ ": " +:+ dq +:+ kv.2 +:+ dq) members)
  +:+ "}".

Definition args_of (members : list (string * string)) : pydict :=
  list_to_map (map (fun kv => (kv.1, PStr kv.2)) members).

(** The text [{"prompt": 7}], built without a quote inside a literal. *)
Definition number_payload : string :=
  "{" +:+ dq +:+ "prompt" +:+ dq +:+ ": 7}".

(** The payloads the samples use, each with the value [json.loads] gives. *)
Definition payloads : list (string * pyval) :=
  [ (json_object [("prompt", "total sales")],
     PDict (args_of [("prompt", "total sales")]));
    (json_object [("prompt", "which trends"); ("data", "sku sales")],
     PDict (args_of [("prompt", "which trends"); ("data", "sku sales")]));
    (json_object [("query", "total sales")],
     PDict (args_of [("query", "total sales")]));
    (number_payload, PDict {["prompt" := PInt 7]}) ].

(** A decoder that agrees with [json.loads] on the payloads above and on
    the text [prompt: total sales], which is no JSON. *)
Definition decode (text : string) : answer pyval :=
  match list_find (fun payload => payload.1 = text) payloads with
  | Some (_, payload) => inr payload.2
  | None => inl ("JSONDecodeError", "Expecting value: line 1 column 1 (char 0)")
  end.

(** [str] of the values that are not built from others. *)
Definition str_of_atom (v : pyval) : string :=
  match v with
  | PNone => "None"
  | PBool true => "True"
  | PBool false => "False"
  | PInt z => pretty z
  | PFloat literal => literal
  | PStr s => s
  | PList _ | PDict _ | PObj _ _ => EmptyString
  end.

(** A world with the given engine, in which the data file is missing and
    the database is empty.  No sample formats a list, a dict or an instance,
    nor reads the text of a [KeyError] or a [TypeError]. *)
Definition world_of
    (engine : trace -> list message -> option (list tool_spec) -> answer response)
  : World :=
  {| chat_create := engine;
     chat_parse := fun _ _ =>
       inr (ParsedResponse [PStr "{}"]);
     read_parquet := fun _ path =>
       inl ("FileNotFoundError", "[Errno 2] No such file or directory: '" +:+ path +:+ "'");
     duckdb_sql := fun _ _ =>
       inl ("CatalogException", "Catalog Error: Table with name sales does not exist!");
     json_loads := decode;
     str_of := str_of_atom;
     interpreter_text := fun _ => EmptyString |}.

Definition request (id fname payload : string) : tool_call :=
  ToolCall id (ToolFunction fname payload).

Definition lookup_call : tool_call :=
  request "call_1" "lookup_sales_data" (json_object [("prompt", "total sales")]).

Definition analyze_call : tool_call :=
  request "call_2" "analyze_sales_data"
    (json_object [("prompt", "which trends"); ("data", "sku sales")]).

Definition weather_call : tool_call :=
  request "call_3" "get_weather" (json_object [("prompt", "total sales")]).

Definition malformed_call : tool_call :=
  request "call_4" "lookup_sales_data" "prompt: total sales".

Definition mistyped_call : tool_call :=
  request "call_6" "lookup_sales_data" number_payload.

Definition misnamed_call : tool_call :=
  request "call_5" "lookup_sales_data" (json_object [("query", "total sales")]).

(** An engine that, as router, asks for [calls] on every turn, and that
    cannot be reached by the generation steps of the tools. *)
Definition asking (calls : list tool_call)
  : trace -> list message -> option (list tool_spec) -> answer response :=
  fun _ _ declared =>
    match declared with
    | Some _ => inr (Response [ChatMessage None (Some calls)])
    | None => inl ("APIConnectionError", "Connection error.")
    end.

(** An engine that answers at once. *)
Definition answering (text : string)
  : trace -> list message -> option (list tool_spec) -> answer response :=
  fun _ _ _ => inr (Response [ChatMessage (Some text) None]).

(** An engine that asks for [calls] on its first turn and answers [text]
    on the next. *)
Definition asking_once (calls : list tool_call) (text : string)
  : trace -> list message -> option (list tool_spec) -> answer response :=
  fun tr _ _ =>
    match engine_calls tr with
    | O => inr (Response [ChatMessage None (Some calls)])
    | _ => inr (Response [ChatMessage (Some text) None])
    end.

(** An engine that, as router, asks for [calls] on every turn, and that
    answers every generation step of the tools with [text]. *)
Definition generating (calls : list tool_call) (text : string)
  : trace -> list message -> option (list tool_spec) -> answer response :=
  fun _ _ declared =>
    match declared with
    | Some _ => inr (Response [ChatMessage None (Some calls)])
    | None => inr (Response [ChatMessage (Some text) None])
    end.

End Samples.

(** ** Further observations *)

(** A Markdown code fence. *)
Definition fence : string := "```".

(** [sub in s] *)
Fixpoint contains (sub s : string) : bool :=
  String.prefix sub s ||
  match s with
  | EmptyString => false
  | String _ s' => contains sub s'
  end.



(** The sentence [analyze_sales_data] puts for a missing analysis. *)
Definition NO_ANALYSIS : string := "No analysis could be generated".

(** The query [lookup_sales_data] runs for the model's reply [text]. *)
Definition cleaned_query (text : string) : string :=
  replace "```" "" (replace "```sql" "" (strip text)).

(** The shape of what the router adds to a conversation: rounds, each the
    message of the engine followed by the capability-result messages of its
    requests, in order.  Every round but the last has the results of all its
    requests; the last may have those of a first part only. *)
Inductive rounds : list message -> Prop :=
| rounds_none : rounds []
| rounds_last msg results :
    length results <= length (requested msg) ->
    rounds (MResp msg :: result_messages (requested msg) results)
| rounds_more msg results rest :
    length results = length (requested msg) ->
    rounds rest ->
    rounds (MResp msg :: result_messages (requested msg) results ++ rest).

(** The statement [lookup_sales_data] issues before it asks the model. *)
Definition create_statement : string :=
  "CREATE TABLE IF NOT EXISTS sales AS SELECT * FROM df".

(** The messages of the three generation steps and of the structured one. *)
Definition sql_request (W : World) (prompt : pyval) (df : dataframe) : list message :=
  [user_message
     (SQL_GENERATION_PROMPT (py_str W prompt) (py_str W (columns df)) "sales")].

Definition analysis_request (W : World) (prompt data : pyval) : list message :=
  [user_message (DATA_ANALYSIS_PROMPT (py_str W data) (py_str W prompt))].

Definition config_request (W : World) (data visualization_goal : pyval)
  : list message :=
  [user_message
     (CHART_CONFIGURATION_PROMPT (py_str W data) (py_str W visualization_goal))].

Definition chart_request (W : World) (config : pydict) : list message :=
  [user_message (CREATE_CHART_PROMPT (py_str W (PDict config)))].

(** The trace of [lookup_sales_data] once the model has been asked. *)
Definition asked_for_sql (W : World) (prompt : pyval) (df : dataframe) (tr : trace)
  : trace :=
  tr ++ [ EvReadParquet TRANSACTION_DATA_FILE_PATH;
          EvSql create_statement;
          EvCreate (sql_request W prompt df) None ].

(** The model gives no text to any generation step. *)
Definition model_is_silent (W : World) : Prop :=
  forall tr msgs, exists msg others,
    chat_create W tr msgs None = inr (Response (msg :: others)) /\
    content msg = None.

(** ** A sample world with data *)

Module Shop.

(** [str(df.columns)] of the sample data. *)
Definition columns_text : string :=
  "Index(['Store_Number', 'Qty_Sold'], dtype='object')".

Definition sales_frame : dataframe := DataFrame (PObj "Index" ∅).

(** [.df().to_string()] of the sample result. *)
Definition table_text : string := "   total" +:+ nl +:+ "0   1520".

(** [repr] of a string that holds no quote and no backslash, [str] of
    another atom. *)
Definition repr_atom (v : pyval) : string :=
  match v with
  | PStr s => "'" +:+ s +:+ "'"
  | _ => Samples.str_of_atom v
  end.

(** [str] of a chart configuration, whose keys stand in the order in which
    [extract_chart_config] puts them. *)
Definition config_text (config : pydict) : string :=
  "{" +:+ String.concat ", "
            (omap (fun key =>
                     (fun v => "'" +:+ key +:+ "': " +:+ repr_atom v) <$> config !! key)
               ["chart_type"; "x_axis"; "y_axis"; "title"; "data"])
  +:+ "}".

Definition render (v : pyval) : string :=
  match v with
  | PObj _ _ => columns_text
  | PDict config => config_text config
  | _ => Samples.str_of_atom v
  end.

(** A world whose data file and database answer, whose model replies
    [reply] to every generation step and [answer] to the router, and whose
    structured output has the content [parsed]. *)
Definition world (reply : option string) (parsed : list pyval) (answer : string)
  : World :=
  {| chat_create := fun _ _ declared =>
       match declared with
       | Some _ => inr (Response [ChatMessage (Some answer) None])
       | None => inr (Response [ChatMessage reply None])
       end;
     chat_parse := fun _ _ => inr (ParsedResponse parsed);
     read_parquet := fun _ _ => inr sales_frame;
     duckdb_sql := fun _ _ => inr table_text;
     json_loads := Samples.decode;
     str_of := render;
     interpreter_text := fun _ => EmptyString |}.

(** A reply in a fenced block. *)
Definition fenced_sql : string :=
  "```sql" +:+ nl +:+ "SELECT SUM(Qty_Sold) AS total FROM sales" +:+ nl +:+ "```".

Definition fenced_code : string :=
  nl +:+ "```python" +:+ nl +:+ "df.plot()" +:+ nl +:+ "```" +:+ nl.

(** The keyword arguments of a request for a chart. *)
Definition visualization_args : pydict :=
  Samples.args_of [("data", "sku sales"); ("visualization_goal", "sales by sku")].

(** A content as the response format describes it. *)
Definition bar_chart : pyval :=
  PObj "VisualizationConfig"
    (<["chart_type" := PStr "bar"]>
    (<["x_axis" := PStr "Store_Number"]>
    (<["y_axis" := PStr "Qty_Sold"]>
    (<["title" := PStr "Sales by store"]> ∅)))).

End Shop.

(** An engine that cannot be reached, and an engine that answers without a
    choice. *)
Definition unreachable
  : trace -> list message -> option (list tool_spec) -> answer response :=
  fun _ _ _ => inl ("APIConnectionError", "Connection error.").

Definition choiceless
  : trace -> list message -> option (list tool_spec) -> answer response :=
  fun _ _ _ => inr (Response []).

(** An engine whose answer asks for nothing and has no content. *)
Definition speechless
  : trace -> list message -> option (list tool_spec) -> answer response :=
  fun _ _ _ => inr (Response [ChatMessage None None]).

(** The world [W], but with a structured call that raises: the client could
    not turn the model's output into the response format. *)
Definition with_parse_error (W : World) (cls text : string) : World :=
  {| chat_create := chat_create W;
     chat_parse := fun _ _ => inl (cls, text);
     read_parquet := read_parquet W;
     duckdb_sql := duckdb_sql W;
     json_loads := json_loads W;
     str_of := str_of W;
     interpreter_text := interpreter_text W |}.

(** * Properties *)

(** ** Worked runs *)

Example strip_query : strip (" SELECT 1 " +:+ nl) = "SELECT 1".
Proof. reflexivity. Qed.

Example replace_fences :
  replace "```" "" (replace "```sql" "" "```sql SELECT 1; ```") = " SELECT 1; ".
Proof. reflexivity. Qed.

Example replace_does_not_overlap : replace "aa" "b" "aaaaa" = "bba".
Proof. reflexivity. Qed.

(** A lookup, then the answer: two engine calls, five messages. *)
Example lookup_then_answer :
  run_agent (Samples.world_of (Samples.asking_once [Samples.lookup_call] "42 units"))
    3 (Text "total sales") [] =
    (Returned (Some "42 units"),
     {| messages :=
          [ user_message "total sales";
            system_message SYSTEM_PROMPT;
            MResp (ChatMessage None (Some [Samples.lookup_call]));
            tool_message
              ("Error accessing data: [Errno 2] No such file or directory: '"
               +:+ TRANSACTION_DATA_FILE_PATH +:+ "'")
              "call_1";
            MResp (ChatMessage (Some "42 units") None) ];
        log :=
          [ EvCreate [user_message "total sales"; system_message SYSTEM_PROMPT]
              (Some tools);
            EvInvoke "lookup_sales_data" (Samples.args_of [("prompt", "total sales")]);
            EvReadParquet TRANSACTION_DATA_FILE_PATH;
            EvCreate
              [ user_message "total sales";
                system_message SYSTEM_PROMPT;
                MResp (ChatMessage None (Some [Samples.lookup_call]));
                tool_message
                  ("Error accessing data: [Errno 2] No such file or directory: '"
                   +:+ TRANSACTION_DATA_FILE_PATH +:+ "'")
                  "call_1" ]
              (Some tools) ] |}).
Proof. vm_compute. reflexivity. Qed.

(** A batch stops at the request it cannot resolve: the lookup before it
    has its result, the lookup after it is never entered. *)
Example batch_stops_at_unknown_name :
  let r := run_agent
             (Samples.world_of
                (Samples.asking
                   [Samples.lookup_call; Samples.weather_call; Samples.lookup_call]))
             3 (Text "total sales") [] in
  r.1 = Failed (KeyError "get_weather") /\
  messages r.2 =
    [ user_message "total sales";
      system_message SYSTEM_PROMPT;
      MResp (ChatMessage None
               (Some [Samples.lookup_call; Samples.weather_call; Samples.lookup_call]));
      tool_message
        ("Error accessing data: [Errno 2] No such file or directory: '"
         +:+ TRANSACTION_DATA_FILE_PATH +:+ "'")
        "call_1" ] /\
  invocations (log r.2) = ["lookup_sales_data"].
Proof. vm_compute. split_and!; reflexivity. Qed.

(** ** The monad *)

Section MonadFacts.
Context {S A B : Type}.

Lemma bind_ok (m : M S A) (k : A -> M S B) s a s' :
  m s = (Ok a, s') -> bind m k s = k a s'.
Proof. intros H. unfold bind. by rewrite H. Qed.

Lemma bind_raise (m : M S A) (k : A -> M S B) s e s' :
  m s = (Raise e, s') -> bind m k s = (Raise e, s').
Proof. intros H. unfold bind. by rewrite H. Qed.

Lemma try_except_ok (m : M S A) (h : exn -> M S A) s a s' :
  m s = (Ok a, s') -> try_except m h s = (Ok a, s').
Proof. intros H. unfold try_except. by rewrite H. Qed.

Lemma try_except_raise (m : M S A) (h : exn -> M S A) s e s' :
  m s = (Raise e, s') -> try_except m h s = h e s'.
Proof. intros H. unfold try_except. by rewrite H. Qed.
End MonadFacts.

(** ** What a tool leaves in the trace *)

Lemma silent_ret {A} (a : A) : silent (ret a).
Proof. intros tr. exists []. by rewrite app_nil_r. Qed.

Lemma silent_raise {A} (e : exn) : silent (@raise trace A e).
Proof. intros tr. exists []. by rewrite app_nil_r. Qed.

Lemma silent_bind {A B} (m : M trace A) (k : A -> M trace B) :
  silent m -> (forall a, silent (k a)) -> silent (bind m k).
Proof.
  intros Hm Hk tr. destruct (Hm tr) as (evs & Htr & Hevs).
  unfold bind. destruct (m tr) as [[a|e] tr1] eqn:E; simpl in Htr; subst tr1.
  - destruct (Hk a (tr ++ evs)) as (evs' & Htr' & Hevs').
    exists (evs ++ evs'). rewrite Htr', app_assoc. split; [done|].
    rewrite forallb_app. by rewrite Hevs, Hevs'.
  - by exists evs.
Qed.

Lemma silent_try_except {A} (m : M trace A) (h : exn -> M trace A) :
  silent m -> (forall e, silent (h e)) -> silent (try_except m h).
Proof.
  intros Hm Hh tr. destruct (Hm tr) as (evs & Htr & Hevs).
  unfold try_except. destruct (m tr) as [[a|e] tr1] eqn:E; simpl in Htr; subst tr1.
  - by exists evs.
  - destruct (Hh e (tr ++ evs)) as (evs' & Htr' & Hevs').
    exists (evs ++ evs'). rewrite Htr', app_assoc. split; [done|].
    rewrite forallb_app. by rewrite Hevs, Hevs'.
Qed.

Lemma silent_external {A} (ev : event) (ask : trace -> answer A) :
  internal ev = true -> silent (external ev ask).
Proof.
  intros Hev tr. exists [ev]. unfold external.
  destruct (ask tr) as [[cls msg]|a]; simpl; by rewrite Hev.
Qed.

Lemma silent_first_of {A} (xs : list A) : silent (first_of xs).
Proof. destruct xs; [apply silent_raise | apply silent_ret]. Qed.

Lemma silent_str_method attr f o : silent (str_method attr f o).
Proof. destruct o; [apply silent_ret | apply silent_raise]. Qed.

Lemma silent_getattr cls attrs attr : silent (getattr cls attrs attr).
Proof. unfold getattr. destruct (attrs !! attr); [apply silent_ret | apply silent_raise]. Qed.

Create HintDb silent discriminated.
#[local] Hint Resolve silent_ret silent_raise silent_external silent_first_of
  silent_str_method silent_getattr : silent.

Ltac silent_steps :=
  repeat lazymatch goal with
    | |- silent (bind _ _) => apply silent_bind; [| intros ?]
    | |- silent (try_except _ _) => apply silent_try_except; [| intros ?]
    | |- silent (match ?x with _ => _ end) => destruct x
    | |- _ => solve [ auto with silent ]
    end.

Section ToolFacts.
Variable W : World.

Lemma silent_ask_model p : silent (ask_model W p).
Proof. unfold ask_model, chat_completions_create. silent_steps. Qed.
Hint Resolve silent_ask_model : silent.

Lemma silent_lookup_sales_data prompt : silent (lookup_sales_data W prompt).
Proof.
  unfold lookup_sales_data, lookup_sales_data_try, generate_sql_query.
  silent_steps.
Qed.

Lemma silent_analyze_sales_data prompt data : silent (analyze_sales_data W prompt data).
Proof. unfold analyze_sales_data. silent_steps. Qed.

Lemma silent_read_chart_config r data : silent (read_chart_config r data).
Proof. unfold read_chart_config. silent_steps. Qed.
Hint Resolve silent_read_chart_config : silent.

Lemma silent_extract_chart_config data goal : silent (extract_chart_config W data goal).
Proof. unfold extract_chart_config. silent_steps. Qed.
Hint Resolve silent_extract_chart_config : silent.

Lemma silent_generate_visualization data goal :
  silent (generate_visualization W data goal).
Proof. unfold generate_visualization, create_chart. silent_steps. Qed.
End ToolFacts.

(** ** Counting in a trace *)

Lemma engine_calls_app tr1 tr2 :
  engine_calls (tr1 ++ tr2) = engine_calls tr1 + engine_calls tr2.
Proof. unfold engine_calls. by rewrite List.filter_app, length_app. Qed.

Lemma invocations_app tr1 tr2 :
  invocations (tr1 ++ tr2) = invocations tr1 ++ invocations tr2.
Proof. unfold invocations. apply omap_app. Qed.

Lemma engine_calls_internal evs :
  forallb internal evs = true -> engine_calls evs = 0.
Proof.
  induction evs as [|ev evs IH]; [done|]. simpl. intros [Hev Hevs]%andb_prop.
  unfold engine_calls in *. simpl.
  destruct ev as [? [?|]| | | |]; simpl in *; try discriminate; auto.
Qed.

Lemma invocations_internal evs :
  forallb internal evs = true -> invocations evs = [].
Proof.
  induction evs as [|ev evs IH]; [done|]. simpl. intros [Hev Hevs]%andb_prop.
  unfold invocations in *. simpl.
  destruct ev as [? [?|]| | | |]; simpl in *; try discriminate; auto.
Qed.

(** ** One tool call *)

Section DispatchFacts.
Variable W : World.

(** The registry holds the three functions declared in [tools], each under
    its own name, and their bodies add internal events only. *)
Lemma registry_lookup k f :
  tool_implementations W !! k = Some f ->
  fn_name f = k /\ k ∈ map spec_name tools /\ forall kw, silent (fn_body f kw).
Proof.
  unfold tool_implementations. intros H.
  destruct (decide (k = "lookup_sales_data")) as [->|N1].
  { rewrite lookup_insert_eq in H. simplify_eq. simpl.
    split_and!; [done|set_solver|]. intros kw. apply silent_lookup_sales_data. }
  rewrite lookup_insert_ne in H by done.
  destruct (decide (k = "analyze_sales_data")) as [->|N2].
  { rewrite lookup_insert_eq in H. simplify_eq. simpl.
    split_and!; [done|set_solver|]. intros kw. apply silent_analyze_sales_data. }
  rewrite lookup_insert_ne in H by done.
  destruct (decide (k = "generate_visualization")) as [->|N3].
  { rewrite lookup_insert_eq in H. simplify_eq. simpl.
    split_and!; [done|set_solver|]. intros kw. apply silent_generate_visualization. }
  rewrite lookup_insert_ne in H by done. by rewrite lookup_empty in H.
Qed.

Lemma registry_declared k :
  is_Some (tool_implementations W !! k) <-> k ∈ map spec_name tools.
Proof.
  split.
  - intros [f Hf]. by apply registry_lookup in Hf as (_ & ? & _).
  - simpl. intros Hk. unfold tool_implementations.
    repeat (apply elem_of_cons in Hk as [->|Hk]; [by eexists|]).
    by apply elem_of_nil in Hk.
Qed.

(** [handle_tool_call], case by case. *)
Lemma handle_tool_call_unfold tc st :
  handle_tool_call W tc st =
  match tool_implementations W !! name (function tc) with
  | None => (Raise (KeyError (name (function tc))), st)
  | Some fn =>
      match json_loads W (arguments (function tc)) with
      | inl (cls, msg) => (Raise (Raised cls msg), st)
      | inr function_args =>
          match call_kwargs fn function_args (log st) with
          | (Ok result, tr) =>
              (Ok tt, {| messages := messages st ++ [tool_message result (call_id tc)];
                         log := tr |})
          | (Raise e, tr) => (Raise e, {| messages := messages st; log := tr |})
          end
      end
  end.
Proof.
  unfold handle_tool_call, bind, getitem, pure_call, lift, append, ret, raise.
  destruct (tool_implementations W !! name (function tc)) as [fn|]; [|done].
  destruct (json_loads W (arguments (function tc))) as [[cls msg]|args]; [done|].
  destruct (call_kwargs fn args (log st)) as [[result|e] tr]; done.
Qed.

(** A call either binds, logs the entry and runs the body, or raises
    [TypeError] and leaves the trace as it was. *)
Lemma call_kwargs_unfold f args tr :
  call_kwargs f args tr =
  match args with
  | PDict kw =>
      if bool_decide (dom kw = list_to_set (fn_params f))
      then fn_body f kw (tr ++ [EvInvoke (fn_name f) kw])
      else (Raise (TypeError (fn_name f) args), tr)
  | _ => (Raise (TypeError (fn_name f) args), tr)
  end.
Proof. unfold call_kwargs. destruct args; try done. by case_bool_decide. Qed.

Lemma call_kwargs_trace f args tr :
  (forall kw, silent (fn_body f kw)) ->
  engine_calls (call_kwargs f args tr).2 = engine_calls tr /\
  (invocations (call_kwargs f args tr).2 = invocations tr ++ [fn_name f] \/
   (exists e, (call_kwargs f args tr).1 = Raise e) /\
   invocations (call_kwargs f args tr).2 = invocations tr).
Proof.
  intros Hf. rewrite call_kwargs_unfold.
  assert (forall e : exn,
    engine_calls (Raise (A:=string) e, tr).2 = engine_calls tr /\
    (invocations (Raise (A:=string) e, tr).2 = invocations tr ++ [fn_name f] \/
     (exists e', (Raise (A:=string) e, tr).1 = Raise e') /\
     invocations (Raise (A:=string) e, tr).2 = invocations tr)) as Hraise.
  { intros e. simpl. split; [done|]. right. eauto. }
  destruct args; try apply Hraise. case_bool_decide; [|apply Hraise].
  destruct (Hf d (tr ++ [EvInvoke (fn_name f) d])) as (evs & -> & Hevs).
  rewrite !engine_calls_app, !invocations_app.
  rewrite (engine_calls_internal evs), (invocations_internal evs) by done.
  split; [unfold engine_calls; simpl; lia|]. left. by rewrite app_nil_r.
Qed.

(** What one tool call does to the conversation and to the trace. *)
Lemma handle_tool_call_cases tc st :
  engine_calls (log (handle_tool_call W tc st).2) = engine_calls (log st) /\
  ((exists result,
      (handle_tool_call W tc st).1 = Ok tt /\
      messages (handle_tool_call W tc st).2
        = messages st ++ [tool_message result (call_id tc)] /\
      invocations (log (handle_tool_call W tc st).2)
        = invocations (log st) ++ [name (function tc)]) \/
   (exists e,
      (handle_tool_call W tc st).1 = Raise e /\
      messages (handle_tool_call W tc st).2 = messages st /\
      (invocations (log (handle_tool_call W tc st).2) = invocations (log st) \/
       invocations (log (handle_tool_call W tc st).2)
         = invocations (log st) ++ [name (function tc)]))).
Proof.
  rewrite handle_tool_call_unfold.
  destruct (tool_implementations W !! name (function tc)) as [fn|] eqn:Hfn;
    [|split; [done|]; right; eauto].
  destruct (json_loads W (arguments (function tc))) as [[cls msg]|args];
    [split; [done|]; right; eauto|].
  apply registry_lookup in Hfn as (Hname & _ & Hsilent).
  destruct (call_kwargs_trace fn args (log st) Hsilent) as [Hcalls Hinv].
  rewrite Hname in Hinv.
  destruct (call_kwargs fn args (log st)) as [[result|e] tr]; simpl in *.
  - split; [done|]. left. exists result. split_and!; [done..|].
    destruct Hinv as [?|[[? [=]] _]]; done.
  - split; [done|]. right. exists e. split_and!; [done..|].
    destruct Hinv as [?|[_ ?]]; auto.
Qed.

End DispatchFacts.

(** ** A batch of tool calls, and the loop *)

Section LoopFacts.
Variable W : World.

Lemma handle_tool_calls_cons tc rest st :
  handle_tool_calls W (tc :: rest) st =
  match handle_tool_call W tc st with
  | (Ok _, st') => handle_tool_calls W rest st'
  | (Raise e, st') => (Raise e, st')
  end.
Proof. done. Qed.

Lemma handle_tool_calls_app pre post st :
  (handle_tool_calls W pre st).1 = Ok tt ->
  handle_tool_calls W (pre ++ post) st
  = handle_tool_calls W post (handle_tool_calls W pre st).2.
Proof.
  revert st. induction pre as [|tc pre IH]; intros st; [done|].
  simpl app. rewrite !handle_tool_calls_cons.
  destruct (handle_tool_call W tc st) as [[[]|e] st1]; [|done].
  apply IH.
Qed.

(** A batch appends the results of a first part of the requests, one
    message per request and in their order; the functions entered are those
    of a first part too, which holds every request that got its result; the
    batch returns exactly when every request got its result. *)
Lemma handle_tool_calls_spec tcs st :
  exists results n,
    messages (handle_tool_calls W tcs st).2
      = messages st ++ result_messages tcs results /\
    invocations (log (handle_tool_calls W tcs st).2)
      = invocations (log st) ++ take n (requested_names tcs) /\
    engine_calls (log (handle_tool_calls W tcs st).2) = engine_calls (log st) /\
    length results <= n <= length tcs /\
    ((handle_tool_calls W tcs st).1 = Ok tt -> length results = length tcs) /\
    (forall e, (handle_tool_calls W tcs st).1 = Raise e -> length results < length tcs).
Proof.
  revert st. induction tcs as [|tc tcs IH]; intros st.
  { exists [], 0. simpl. rewrite !app_nil_r. split_and!; try done; lia. }
  rewrite handle_tool_calls_cons.
  destruct (handle_tool_call_cases W tc st) as [Hcalls Hcases].
  destruct (handle_tool_call W tc st) as [[[]|e] st1]; simpl in *.
  - destruct Hcases as [(result & _ & Hmsgs & Hinv)|(e & [=] & _)].
    destruct (IH st1) as (results & n & H1 & H2 & H3 & H4 & H5 & H6).
    exists (result :: results), (S n). simpl.
    rewrite H1, H2, H3, Hmsgs, Hinv, Hcalls, <- !app_assoc. simpl.
    split_and!; try done; try lia.
    + intros H. apply H5 in H. lia.
    + intros e H. apply H6 in H. lia.
  - destruct Hcases as [(result & [=] & _)|(e' & _ & Hmsgs & Hinv)].
    destruct Hinv as [Hinv|Hinv].
    + exists [], 0. simpl. rewrite Hmsgs, Hinv, !app_nil_r.
      split_and!; try done; lia.
    + exists [], 1. simpl. rewrite Hmsgs, Hinv, !app_nil_r.
      split_and!; try done; lia.
Qed.

Lemma ensure_system_prompt_unfold st :
  ensure_system_prompt st
  = (Ok tt, {| messages := with_system_prompt (messages st); log := log st |}).
Proof.
  unfold ensure_system_prompt, with_system_prompt, append.
  destruct (existsb is_system (messages st)); simpl; [by destruct st|done].
Qed.

(** One round of the loop, case by case. *)
Lemma router_step_unfold st :
  router_step W st =
  match chat_create W (log st) (messages st) (Some tools) with
  | inl (cls, msg) =>
      (Raise (Raised cls msg),
       {| messages := messages st;
          log := log st ++ [EvCreate (messages st) (Some tools)] |})
  | inr response =>
      match choices response with
      | [] =>
          (Raise IndexError,
           {| messages := messages st;
              log := log st ++ [EvCreate (messages st) (Some tools)] |})
      | msg :: _ =>
          match requested msg with
          | [] => (Ok (Some (content msg)), answered st msg)
          | tcs =>
              match handle_tool_calls W tcs (answered st msg) with
              | (Ok _, st') => (Ok None, st')
              | (Raise e, st') => (Raise e, st')
              end
          end
      end
  end.
Proof.
  unfold router_step, bind, lift, chat_completions_create, external, answered.
  destruct (chat_create W (log st) (messages st) (Some tools)) as [[cls msg]|response];
    [done|].
  destruct (choices response) as [|msg others]; [done|]. simpl.
  destruct (requested msg) as [|tc tcs]; [done|].
  match goal with
  | |- (let (_, _) := ?batch in _) = _ => destruct batch as [[[]|e] st']
  end; done.
Qed.

(** A round keeps what the conversation held and adds to its end. *)
Lemma router_step_prefix st :
  messages st `prefix_of` messages (router_step W st).2.
Proof.
  rewrite router_step_unfold.
  destruct (chat_create W (log st) (messages st) (Some tools)) as [[cls msg]|response];
    [done|].
  destruct (choices response) as [|msg others]; [done|].
  assert (messages st `prefix_of` messages (answered st msg)) as Hans
    by apply prefix_app_r, reflexivity.
  destruct (requested msg) as [|tc tcs]; [done|].
  destruct (handle_tool_calls_spec (tc :: tcs) (answered st msg))
    as (results & n & Hmsgs & _).
  destruct (handle_tool_calls W (tc :: tcs) (answered st msg)) as [[[]|e] st'];
    simpl in *; rewrite Hmsgs; by apply prefix_app_r.
Qed.

Lemma router_loop_unfold fuel st :
  router_loop W (S fuel) st =
  match router_step W st with
  | (Ok (Some answer), st') => (Returned answer, st')
  | (Ok None, st') => router_loop W fuel st'
  | (Raise e, st') => (Failed e, st')
  end.
Proof. done. Qed.

Lemma router_loop_prefix fuel st :
  messages st `prefix_of` messages (router_loop W fuel st).2.
Proof.
  revert st. induction fuel as [|fuel IH]; intros st; [done|].
  rewrite router_loop_unfold. pose proof (router_step_prefix st) as Hstep.
  destruct (router_step W st) as [[[answer|]|e] st']; simpl in *; try done.
  by etrans; [|apply IH].
Qed.

(** More rounds only add to the conversation of fewer rounds. *)
Lemma router_loop_more_fuel fuel k st :
  messages (router_loop W fuel st).2
    `prefix_of` messages (router_loop W (fuel + k) st).2.
Proof.
  revert st. induction fuel as [|fuel IH]; intros st.
  { apply router_loop_prefix. }
  replace (S fuel + k) with (S (fuel + k)) by lia. rewrite !router_loop_unfold.
  destruct (router_step W st) as [[[answer|]|e] st']; simpl;
    [done | apply IH | done].
Qed.

(** Once the call has returned or raised, more rounds change nothing. *)
Lemma router_loop_settled fuel k st :
  (router_loop W fuel st).1 <> Running ->
  router_loop W (fuel + k) st = router_loop W fuel st.
Proof.
  revert st. induction fuel as [|fuel IH]; intros st; [done|].
  replace (S fuel + k) with (S (fuel + k)) by lia. rewrite !router_loop_unfold.
  destruct (router_step W st) as [[[answer|]|e] st']; [done | apply IH | done].
Qed.

(** A round whose batch raises ends the loop with that exception. *)
Lemma router_loop_failed_turn fuel st msg others e st' :
  chat_create W (log st) (messages st) (Some tools) = inr (Response (msg :: others)) ->
  handle_tool_calls W (requested msg) (answered st msg) = (Raise e, st') ->
  router_loop W (S fuel) st = (Failed e, st').
Proof.
  intros Hcreate Hbatch. rewrite router_loop_unfold, router_step_unfold, Hcreate.
  cbn [choices]. destruct (requested msg) as [|tc tcs]; [discriminate Hbatch|].
  by rewrite Hbatch.
Qed.

(** A request that raises stops the batch there. *)
Lemma handle_tool_calls_raise_at pre tc rest st e st' :
  (handle_tool_calls W pre st).1 = Ok tt ->
  handle_tool_call W tc (handle_tool_calls W pre st).2 = (Raise e, st') ->
  handle_tool_calls W (pre ++ tc :: rest) st = (Raise e, st').
Proof.
  intros Hpre Htc. rewrite handle_tool_calls_app by done.
  rewrite handle_tool_calls_cons. by rewrite Htc.
Qed.

(** With an engine that always asks and batches that always return, the
    loop is still running after any number of rounds, one engine call each. *)
Lemma router_loop_running fuel st :
  always_requests W -> dispatch_returns W ->
  (router_loop W fuel st).1 = Running /\
  engine_calls (log (router_loop W fuel st).2) = engine_calls (log st) + fuel.
Proof.
  intros Hreq Hdisp. revert st. induction fuel as [|fuel IH]; intros st.
  { simpl. split; [done|lia]. }
  rewrite router_loop_unfold, router_step_unfold.
  destruct (Hreq (log st) (messages st)) as (msg & others & Hcreate & Hne).
  rewrite Hcreate. cbn [choices].
  pose proof (Hdisp _ _ _ _ (answered st msg) Hcreate) as Hok.
  destruct (handle_tool_calls_spec (requested msg) (answered st msg))
    as (results & n & _ & _ & Hcalls & _).
  destruct (requested msg) as [|tc tcs]; [done|].
  destruct (handle_tool_calls W (tc :: tcs) (answered st msg)) as [[[]|e] st'];
    [|done].
  simpl in *. destruct (IH st') as [Hrun Hcount]. split; [done|].
  rewrite Hcount, Hcalls, engine_calls_app. unfold engine_calls. simpl. lia.
Qed.

End LoopFacts.

(** ** The lookup tool never raises *)

Section LookupFacts.
Variable W : World.

Lemma lookup_sales_data_cases prompt tr :
  lookup_sales_data W prompt tr =
  match lookup_sales_data_try W prompt tr with
  | (Ok text, tr') => (Ok text, tr')
  | (Raise e, tr') => (Ok ("Error accessing data: " +:+ exn_str W e), tr')
  end.
Proof.
  unfold lookup_sales_data, try_except.
  by destruct (lookup_sales_data_try W prompt tr) as [[text|e] tr'].
Qed.

(** The handler of [lookup_sales_data] never sees a [KeyError] nor the
    [TypeError] of a call: its text is that of an outside party, of a missing
    attribute or of an index out of range. *)
Lemma lookup_sales_data_try_raises prompt tr e tr' :
  lookup_sales_data_try W prompt tr = (Raise e, tr') -> has_own_text e = true.
Proof.
  unfold lookup_sales_data_try, generate_sql_query, ask_model,
    chat_completions_create, bind, external, first_of, str_method, raise, ret.
  intros H. repeat case_match; by simplify_eq.
Qed.

Lemma lookup_sales_data_total prompt tr :
  exists text, (lookup_sales_data W prompt tr).1 = Ok text.
Proof.
  rewrite lookup_sales_data_cases.
  destruct (lookup_sales_data_try W prompt tr) as [[text|e] tr']; eauto.
Qed.

Lemma registry_lookup_sales_data :
  tool_implementations W !! "lookup_sales_data"
  = Some (PyFunction "lookup_sales_data" ["prompt"]
            (fun kw => lookup_sales_data W (kwarg kw "prompt"))).
Proof. unfold tool_implementations. by rewrite lookup_insert_eq. Qed.

(** A well-formed request for the lookup always gets its result message. *)
Lemma handle_lookup_call tc st kw :
  name (function tc) = "lookup_sales_data" ->
  json_loads W (arguments (function tc)) = inr (PDict kw) ->
  dom kw = list_to_set ["prompt"] ->
  exists result,
    (handle_tool_call W tc st).1 = Ok tt /\
    messages (handle_tool_call W tc st).2
      = messages st ++ [tool_message result (call_id tc)].
Proof.
  intros Hname Hjson Hdom.
  rewrite handle_tool_call_unfold, Hname, registry_lookup_sales_data, Hjson.
  rewrite call_kwargs_unfold. cbn [fn_params fn_body fn_name].
  rewrite bool_decide_eq_true_2 by done.
  destruct (lookup_sales_data_total (kwarg kw "prompt")
              (log st ++ [EvInvoke "lookup_sales_data" kw])) as [text Htext].
  destruct (lookup_sales_data W _ _) as [[result|e] tr']; simplify_eq/=.
  by exists text.
Qed.

End LookupFacts.

(** ** The sample worlds *)

Section SampleFacts.
Import Samples.

Lemma asking_always_requests tc calls :
  always_requests (world_of (asking (tc :: calls))).
Proof. intros tr msgs. by exists (ChatMessage None (Some (tc :: calls))), []. Qed.

Lemma asking_lookup_dispatch_returns :
  dispatch_returns (world_of (asking [lookup_call])).
Proof.
  intros tr msgs msg rest st [= <- <-]. cbn [requested tool_calls].
  rewrite handle_tool_calls_cons.
  destruct (handle_lookup_call (world_of (asking [lookup_call])) lookup_call st
              (args_of [("prompt", "total sales")])) as (result & Hok & _);
    [done | by vm_compute | by vm_compute |].
  by destruct (handle_tool_call _ lookup_call st) as [[[]|e] st'].
Qed.

End SampleFacts.

(** * The claims *)

(** ** C1: the iteration cap *)

(** C1 (as the code has it).  [run_agent] has no iteration cap.  When the
    engine asks for capabilities on every turn and every batch returns,
    [run_agent] neither returns nor fails: after any number [fuel] of rounds
    it is still in its loop and has called the engine exactly [fuel] times. *)
Theorem run_agent_has_no_iteration_cap W fuel input tr :
  always_requests W ->
  dispatch_returns W ->
  (run_agent W fuel input tr).1 = Running /\
  engine_calls (log (run_agent W fuel input tr).2) = engine_calls tr + fuel.
Proof.
  intros Hreq Hdisp. unfold run_agent. rewrite ensure_system_prompt_unfold.
  by destruct (router_loop_running W fuel
                 {| messages := with_system_prompt (initial_messages input);
                    log := tr |} Hreq Hdisp).
Qed.

(** Seven rounds with an engine that asks for the lookup on every turn. *)
Lemma run_agent_has_no_iteration_cap_witness :
  (run_agent (Samples.world_of (Samples.asking [Samples.lookup_call])) 7
     (Text "total sales") []).1 = Running /\
  engine_calls
    (log (run_agent (Samples.world_of (Samples.asking [Samples.lookup_call])) 7
            (Text "total sales") []).2) = engine_calls [] + 7.
Proof.
  apply (run_agent_has_no_iteration_cap
           (Samples.world_of (Samples.asking [Samples.lookup_call])) 7
           (Text "total sales") []).
  - apply asking_always_requests.
  - apply asking_lookup_dispatch_returns.
Defined.

(** C1 (as the spec has it) fails: with an engine that asks for the lookup
    on every turn, no number of rounds makes [run_agent] fail, with
    [NonConvergence] or anything else; after 40 rounds it has called the
    engine 40 times and is still running. *)
Lemma run_agent_never_fails_with_nonconvergence :
  always_requests (Samples.world_of (Samples.asking [Samples.lookup_call])) /\
  ~ (exists cap e,
       (run_agent (Samples.world_of (Samples.asking [Samples.lookup_call])) cap
          (Text "total sales") []).1 = Failed e) /\
  (run_agent (Samples.world_of (Samples.asking [Samples.lookup_call])) 40
     (Text "total sales") []).1 = Running /\
  engine_calls
    (log (run_agent (Samples.world_of (Samples.asking [Samples.lookup_call])) 40
            (Text "total sales") []).2) = 40.
Proof.
  assert (forall cap,
    (run_agent (Samples.world_of (Samples.asking [Samples.lookup_call])) cap
       (Text "total sales") []).1 = Running /\
    engine_calls
      (log (run_agent (Samples.world_of (Samples.asking [Samples.lookup_call])) cap
              (Text "total sales") []).2) = 0 + cap) as Hrun.
  { intros cap. unfold run_agent. rewrite ensure_system_prompt_unfold.
    apply (router_loop_running _ cap
             {| messages := with_system_prompt (initial_messages (Text "total sales"));
                log := [] |}).
    - apply asking_always_requests.
    - apply asking_lookup_dispatch_returns. }
  split_and!.
  - apply asking_always_requests.
  - intros (cap & e & Hfail). destruct (Hrun cap) as [Hcap _].
    by rewrite Hcap in Hfail.
  - apply Hrun.
  - apply Hrun.
Qed.

(** ** C2: a capability that is not in the registry *)

(** C2 (as the code has it).  A request whose name is not a key of
    [tool_implementations] makes [handle_tool_calls] raise [KeyError] at that
    request.  The requests before it have their result messages; no message
    is appended for the unknown one nor for those after it, and the
    exception ends [run_agent]: the loop does not go on. *)
Theorem unknown_capability_raises_key_error W fuel st msg others pre tc rest :
  chat_create W (log st) (messages st) (Some tools)
    = inr (Response (msg :: others)) ->
  requested msg = pre ++ tc :: rest ->
  (handle_tool_calls W pre (answered st msg)).1 = Ok tt ->
  tool_implementations W !! name (function tc) = None ->
  exists results,
    length results = length pre /\
    router_loop W (S fuel) st =
      (Failed (KeyError (name (function tc))),
       {| messages := messages st ++ MResp msg :: result_messages pre results;
          log := log (handle_tool_calls W pre (answered st msg)).2 |}).
Proof.
  intros Hcreate Hreq Hpre Hnone.
  destruct (handle_tool_calls_spec W pre (answered st msg))
    as (results & n & Hmsgs & _ & _ & _ & Hlen & _).
  exists results. split; [by apply Hlen|].
  apply (router_loop_failed_turn W fuel st msg others); [done|].
  rewrite Hreq. apply handle_tool_calls_raise_at; [done|].
  rewrite handle_tool_call_unfold, Hnone.
  destruct (handle_tool_calls W pre (answered st msg)) as [r [msgs tr]].
  simpl in *. rewrite Hmsgs. by rewrite <- app_assoc.
Qed.

(** A turn that asks for the lookup, then for [get_weather], then for the
    lookup again. *)
Lemma unknown_capability_raises_key_error_witness :
  exists results,
    length results = 1 /\
    router_loop
      (Samples.world_of
         (Samples.asking
            [Samples.lookup_call; Samples.weather_call; Samples.lookup_call]))
      3 {| messages := [user_message "total sales"]; log := [] |} =
      (Failed (KeyError "get_weather"),
       {| messages :=
            [user_message "total sales"]
            ++ MResp (ChatMessage None
                        (Some [Samples.lookup_call; Samples.weather_call;
                               Samples.lookup_call]))
               :: result_messages [Samples.lookup_call] results;
          log :=
            [ EvCreate [user_message "total sales"] (Some tools);
              EvInvoke "lookup_sales_data"
                (Samples.args_of [("prompt", "total sales")]);
              EvReadParquet TRANSACTION_DATA_FILE_PATH ] |}).
Proof.
  apply (unknown_capability_raises_key_error
           (Samples.world_of
              (Samples.asking
                 [Samples.lookup_call; Samples.weather_call; Samples.lookup_call]))
           2 {| messages := [user_message "total sales"]; log := [] |}
           (ChatMessage None
              (Some [Samples.lookup_call; Samples.weather_call; Samples.lookup_call]))
           [] [Samples.lookup_call] Samples.weather_call [Samples.lookup_call]).
  - reflexivity.
  - reflexivity.
  - vm_compute. reflexivity.
  - vm_compute. reflexivity.
Defined.

(** C2 (as the spec has it) fails: when the engine asks for [get_weather],
    which the registry does not hold, [run_agent] ends with [KeyError]; the
    conversation holds the query, the system prompt and the engine's message,
    and no capability-result message. *)
Lemma unknown_capability_ends_run_agent :
  tool_implementations (Samples.world_of (Samples.asking [Samples.weather_call]))
    !! "get_weather" = None /\
  run_agent (Samples.world_of (Samples.asking [Samples.weather_call])) 3
    (Text "total sales") [] =
    (Failed (KeyError "get_weather"),
     {| messages :=
          [ user_message "total sales";
            system_message SYSTEM_PROMPT;
            MResp (ChatMessage None (Some [Samples.weather_call])) ];
        log :=
          [ EvCreate [user_message "total sales"; system_message SYSTEM_PROMPT]
              (Some tools) ] |}).
Proof. split; vm_compute; reflexivity. Qed.

(** ** C3: arguments that are malformed or do not fit the schema *)

(** C3 (as the code has it).  For a request of a registered function [fn]:
    when [json.loads] rejects the payload, its exception leaves
    [handle_tool_calls]; when the payload decodes to anything but an object
    whose members are exactly the parameters of [fn], the call raises
    [TypeError].  Either way no message is appended for the request and the
    exception ends [run_agent].  When the members are exactly the
    parameters, [fn] is entered whatever the types of the values. *)
Theorem invalid_arguments_raise W fuel st msg others pre tc rest fn :
  chat_create W (log st) (messages st) (Some tools)
    = inr (Response (msg :: others)) ->
  requested msg = pre ++ tc :: rest ->
  (handle_tool_calls W pre (answered st msg)).1 = Ok tt ->
  tool_implementations W !! name (function tc) = Some fn ->
  (forall cls text,
     json_loads W (arguments (function tc)) = inl (cls, text) ->
     router_loop W (S fuel) st
     = (Failed (Raised cls text), (handle_tool_calls W pre (answered st msg)).2)) /\
  (forall function_args,
     json_loads W (arguments (function tc)) = inr function_args ->
     ~ binds fn function_args ->
     router_loop W (S fuel) st
     = (Failed (TypeError (fn_name fn) function_args),
        (handle_tool_calls W pre (answered st msg)).2)) /\
  (forall kw st1,
     json_loads W (arguments (function tc)) = inr (PDict kw) ->
     dom kw = list_to_set (fn_params fn) ->
     handle_tool_call W tc st1 =
     match fn_body fn kw (log st1 ++ [EvInvoke (fn_name fn) kw]) with
     | (Ok result, tr) =>
         (Ok tt, {| messages := messages st1 ++ [tool_message result (call_id tc)];
                    log := tr |})
     | (Raise e, tr) => (Raise e, {| messages := messages st1; log := tr |})
     end).
Proof.
  intros Hcreate Hreq Hpre Hfn. split_and!.
  - intros cls text Hjson.
    apply (router_loop_failed_turn W fuel st msg others); [done|].
    rewrite Hreq. apply handle_tool_calls_raise_at; [done|].
    by rewrite handle_tool_call_unfold, Hfn, Hjson.
  - intros args Hjson Hbinds.
    apply (router_loop_failed_turn W fuel st msg others); [done|].
    rewrite Hreq. apply handle_tool_calls_raise_at; [done|].
    rewrite handle_tool_call_unfold, Hfn, Hjson, call_kwargs_unfold.
    destruct (handle_tool_calls W pre (answered st msg)) as [r [msgs tr]].
    destruct args; try done. case_bool_decide; [|done].
    destruct Hbinds. by eexists.
  - intros kw st1 Hjson Hdom.
    rewrite handle_tool_call_unfold, Hfn, Hjson, call_kwargs_unfold.
    by rewrite bool_decide_eq_true_2.
Qed.

(** A payload that is no JSON, a payload whose member is not the parameter,
    and a payload that binds a number where the schema asks for a string. *)
Lemma invalid_arguments_raise_witness :
  router_loop (Samples.world_of (Samples.asking [Samples.malformed_call])) 3
    {| messages := [user_message "total sales"]; log := [] |}
  = (Failed (Raised "JSONDecodeError" "Expecting value: line 1 column 1 (char 0)"),
     answered {| messages := [user_message "total sales"]; log := [] |}
       (ChatMessage None (Some [Samples.malformed_call]))) /\
  router_loop (Samples.world_of (Samples.asking [Samples.misnamed_call])) 3
    {| messages := [user_message "total sales"]; log := [] |}
  = (Failed (TypeError "lookup_sales_data"
               (PDict (Samples.args_of [("query", "total sales")]))),
     answered {| messages := [user_message "total sales"]; log := [] |}
       (ChatMessage None (Some [Samples.misnamed_call]))) /\
  handle_tool_call (Samples.world_of (Samples.asking [Samples.mistyped_call]))
    Samples.mistyped_call {| messages := [user_message "total sales"]; log := [] |}
  = (Ok tt,
     {| messages :=
          [ user_message "total sales";
            tool_message
              ("Error accessing data: [Errno 2] No such file or directory: '"
               +:+ TRANSACTION_DATA_FILE_PATH +:+ "'")
              "call_6" ];
        log :=
          [ EvInvoke "lookup_sales_data" {["prompt" := PInt 7]};
            EvReadParquet TRANSACTION_DATA_FILE_PATH ] |}).
Proof.
  split_and!.
  - apply (invalid_arguments_raise
             (Samples.world_of (Samples.asking [Samples.malformed_call])) 2
             {| messages := [user_message "total sales"]; log := [] |}
             (ChatMessage None (Some [Samples.malformed_call])) []
             [] Samples.malformed_call [] _
             eq_refl eq_refl eq_refl (registry_lookup_sales_data _)).
    reflexivity.
  - apply (invalid_arguments_raise
             (Samples.world_of (Samples.asking [Samples.misnamed_call])) 2
             {| messages := [user_message "total sales"]; log := [] |}
             (ChatMessage None (Some [Samples.misnamed_call])) []
             [] Samples.misnamed_call [] _
             eq_refl eq_refl eq_refl (registry_lookup_sales_data _)).
    + vm_compute. reflexivity.
    + intros (kw & [= <-] & Hdom). vm_compute in Hdom. discriminate Hdom.
  - rewrite (proj2 (proj2 (invalid_arguments_raise
             (Samples.world_of (Samples.asking [Samples.mistyped_call])) 2
             {| messages := [user_message "total sales"]; log := [] |}
             (ChatMessage None (Some [Samples.mistyped_call])) []
             [] Samples.mistyped_call [] _
             eq_refl eq_refl eq_refl (registry_lookup_sales_data _)))
             {["prompt" := PInt 7]}).
    + vm_compute. reflexivity.
    + vm_compute. reflexivity.
    + vm_compute. reflexivity.
Defined.

(** C3 (as the spec has it) fails: a payload that is no JSON is not turned
    into a result; the decoder's exception ends [run_agent], and the
    conversation holds no capability-result message. *)
Lemma malformed_arguments_end_run_agent :
  json_loads (Samples.world_of (Samples.asking [Samples.malformed_call]))
    (arguments (function Samples.malformed_call))
  = inl ("JSONDecodeError", "Expecting value: line 1 column 1 (char 0)") /\
  run_agent (Samples.world_of (Samples.asking [Samples.malformed_call])) 3
    (Text "total sales") [] =
    (Failed (Raised "JSONDecodeError" "Expecting value: line 1 column 1 (char 0)"),
     {| messages :=
          [ user_message "total sales";
            system_message SYSTEM_PROMPT;
            MResp (ChatMessage None (Some [Samples.malformed_call])) ];
        log :=
          [ EvCreate [user_message "total sales"; system_message SYSTEM_PROMPT]
              (Some tools) ] |}).
Proof. split; vm_compute; reflexivity. Qed.

(** ** C4: failures inside a capability *)

(** C4 (as the code has it).  [lookup_sales_data] catches every failure of
    its [try] block and returns the text [Error accessing data: ...], so it
    never raises, and a well-formed request for it always gets its result
    message.  [handle_tool_calls] itself has no handler: when the body of a
    function raises, the exception leaves the dispatch step and no message is
    appended for the request. *)
Theorem capability_failures W :
  (forall prompt tr, exists text, (lookup_sales_data W prompt tr).1 = Ok text) /\
  (forall prompt tr e tr',
     lookup_sales_data_try W prompt tr = (Raise e, tr') ->
     lookup_sales_data W prompt tr
     = (Ok ("Error accessing data: " +:+ exn_str W e), tr')) /\
  (forall tc st kw,
     name (function tc) = "lookup_sales_data" ->
     json_loads W (arguments (function tc)) = inr (PDict kw) ->
     dom kw = list_to_set ["prompt"] ->
     exists result,
       (handle_tool_call W tc st).1 = Ok tt /\
       messages (handle_tool_call W tc st).2
         = messages st ++ [tool_message result (call_id tc)]) /\
  (forall tc st fn kw e tr,
     tool_implementations W !! name (function tc) = Some fn ->
     json_loads W (arguments (function tc)) = inr (PDict kw) ->
     dom kw = list_to_set (fn_params fn) ->
     fn_body fn kw (log st ++ [EvInvoke (fn_name fn) kw]) = (Raise e, tr) ->
     handle_tool_call W tc st = (Raise e, {| messages := messages st; log := tr |})).
Proof.
  split_and!.
  - apply lookup_sales_data_total.
  - intros prompt tr e tr' Hbody. by rewrite lookup_sales_data_cases, Hbody.
  - apply handle_lookup_call.
  - intros tc st fn kw e tr Hfn Hjson Hdom Hbody.
    rewrite handle_tool_call_unfold, Hfn, Hjson, call_kwargs_unfold.
    by rewrite bool_decide_eq_true_2, Hbody.
Qed.

(** The lookup without its data file, as a function and as a request, and
    the analysis without its model. *)
Lemma capability_failures_witness :
  lookup_sales_data (Samples.world_of (Samples.asking [Samples.lookup_call]))
    (PStr "total sales") []
  = (Ok ("Error accessing data: [Errno 2] No such file or directory: '"
         +:+ TRANSACTION_DATA_FILE_PATH +:+ "'"),
     [EvReadParquet TRANSACTION_DATA_FILE_PATH]) /\
  (exists result,
     (handle_tool_call (Samples.world_of (Samples.asking [Samples.lookup_call]))
        Samples.lookup_call {| messages := []; log := [] |}).1 = Ok tt /\
     messages
       (handle_tool_call (Samples.world_of (Samples.asking [Samples.lookup_call]))
          Samples.lookup_call {| messages := []; log := [] |}).2
     = [] ++ [tool_message result "call_1"]) /\
  handle_tool_call (Samples.world_of (Samples.asking [Samples.analyze_call]))
    Samples.analyze_call {| messages := []; log := [] |}
  = (Raise (Raised "APIConnectionError" "Connection error."),
     {| messages := [];
        log :=
          [ EvInvoke "analyze_sales_data"
              (Samples.args_of [("prompt", "which trends"); ("data", "sku sales")]);
            EvCreate
              [user_message (DATA_ANALYSIS_PROMPT "sku sales" "which trends")]
              None ] |}).
Proof.
  split_and!.
  - apply (proj1 (proj2 (capability_failures
             (Samples.world_of (Samples.asking [Samples.lookup_call]))))
             (PStr "total sales") []
             (Raised "FileNotFoundError"
                ("[Errno 2] No such file or directory: '"
                 +:+ TRANSACTION_DATA_FILE_PATH +:+ "'"))).
    vm_compute. reflexivity.
  - apply (proj1 (proj2 (proj2 (capability_failures
             (Samples.world_of (Samples.asking [Samples.lookup_call])))))
             Samples.lookup_call {| messages := []; log := [] |}
             (Samples.args_of [("prompt", "total sales")])).
    + reflexivity.
    + vm_compute. reflexivity.
    + vm_compute. reflexivity.
  - apply (proj2 (proj2 (proj2 (capability_failures
             (Samples.world_of (Samples.asking [Samples.analyze_call])))))
             Samples.analyze_call {| messages := []; log := [] |}
             (PyFunction "analyze_sales_data" ["prompt"; "data"]
                (fun kw =>
                   analyze_sales_data
                     (Samples.world_of (Samples.asking [Samples.analyze_call]))
                     (kwarg kw "prompt") (kwarg kw "data")))
             (Samples.args_of [("prompt", "which trends"); ("data", "sku sales")])).
    + vm_compute. reflexivity.
    + vm_compute. reflexivity.
    + vm_compute. reflexivity.
    + vm_compute. reflexivity.
Defined.

(** C4 (as the spec has it) fails: the engine asks for [analyze_sales_data],
    whose generation step cannot reach the model; the failure is not turned
    into a result message but leaves the dispatch step and ends
    [run_agent]. *)
Lemma analysis_failure_ends_run_agent :
  run_agent (Samples.world_of (Samples.asking [Samples.analyze_call])) 3
    (Text "which trends") [] =
    (Failed (Raised "APIConnectionError" "Connection error."),
     {| messages :=
          [ user_message "which trends";
            system_message SYSTEM_PROMPT;
            MResp (ChatMessage None (Some [Samples.analyze_call])) ];
        log :=
          [ EvCreate [user_message "which trends"; system_message SYSTEM_PROMPT]
              (Some tools);
            EvInvoke "analyze_sales_data"
              (Samples.args_of [("prompt", "which trends"); ("data", "sku sales")]);
            EvCreate
              [user_message (DATA_ANALYSIS_PROMPT "sku sales" "which trends")]
              None ] |}).
Proof. vm_compute. reflexivity. Qed.

(** ** C5: the conversation is append-only *)

(** C5.  Every step of the router keeps the messages the conversation held,
    in their places and unchanged, and adds to its end: the conversation
    before a round is a prefix of the conversation after it, and likewise
    for a batch of tool calls.  So the list [run_agent] starts from is a
    prefix of the conversation after any number of rounds, the conversation
    after [fuel] rounds is a prefix of the conversation after [fuel + k]
    rounds, and its length never decreases. *)
Theorem conversation_is_append_only W fuel k input tr st tcs :
  messages st `prefix_of` messages (router_step W st).2 /\
  messages st `prefix_of` messages (handle_tool_calls W tcs st).2 /\
  initial_messages input `prefix_of` messages (run_agent W fuel input tr).2 /\
  messages (run_agent W fuel input tr).2
    `prefix_of` messages (run_agent W (fuel + k) input tr).2 /\
  length (messages (run_agent W fuel input tr).2)
    <= length (messages (run_agent W (fuel + k) input tr).2).
Proof.
  assert (messages (run_agent W fuel input tr).2
            `prefix_of` messages (run_agent W (fuel + k) input tr).2) as Hmore
    by apply router_loop_more_fuel.
  split_and!.
  - apply router_step_prefix.
  - destruct (handle_tool_calls_spec W tcs st) as (results & n & -> & _).
    by apply prefix_app_r.
  - unfold run_agent. rewrite ensure_system_prompt_unfold.
    etrans; [|apply router_loop_prefix]. simpl. unfold with_system_prompt.
    destruct (existsb is_system (initial_messages input)); [done|].
    by apply prefix_app_r.
  - done.
  - by apply prefix_length.
Qed.

(** ** C6: a plain answer on the first turn *)

(** C6.  When the engine's first response asks for no capability,
    [run_agent] returns the content of that response after one round: the
    engine has been called exactly once, with the conversation as it stood
    after the system-prompt check, and its message is the last one of the
    conversation. *)
Theorem plain_answer_after_one_engine_call W fuel input tr msg others :
  chat_create W tr (with_system_prompt (initial_messages input)) (Some tools)
    = inr (Response (msg :: others)) ->
  requested msg = [] ->
  run_agent W (S fuel) input tr =
    (Returned (content msg),
     {| messages := with_system_prompt (initial_messages input) ++ [MResp msg];
        log := tr ++ [EvCreate (with_system_prompt (initial_messages input))
                        (Some tools)] |}) /\
  engine_calls (log (run_agent W (S fuel) input tr).2) = engine_calls tr + 1.
Proof.
  intros Hcreate Hnone.
  assert (run_agent W (S fuel) input tr =
    (Returned (content msg),
     {| messages := with_system_prompt (initial_messages input) ++ [MResp msg];
        log := tr ++ [EvCreate (with_system_prompt (initial_messages input))
                        (Some tools)] |})) as Hrun.
  { unfold run_agent. rewrite ensure_system_prompt_unfold.
    rewrite router_loop_unfold, router_step_unfold. cbn [messages log snd].
    rewrite Hcreate. cbn [choices]. by rewrite Hnone. }
  split; [done|]. rewrite Hrun. cbn [snd log].
  rewrite engine_calls_app. done.
Qed.

(** An engine that answers at once. *)
Lemma plain_answer_after_one_engine_call_witness :
  run_agent (Samples.world_of (Samples.answering "42 units")) 5
    (Text "total sales") [] =
    (Returned (Some "42 units"),
     {| messages :=
          with_system_prompt [user_message "total sales"]
          ++ [MResp (ChatMessage (Some "42 units") None)];
        log := [] ++ [EvCreate (with_system_prompt [user_message "total sales"])
                        (Some tools)] |}) /\
  engine_calls
    (log (run_agent (Samples.world_of (Samples.answering "42 units")) 5
            (Text "total sales") []).2) = engine_calls [] + 1.
Proof.
  apply (plain_answer_after_one_engine_call
           (Samples.world_of (Samples.answering "42 units")) 4
           (Text "total sales") [] (ChatMessage (Some "42 units") None) []).
  - reflexivity.
  - reflexivity.
Defined.

(** ** C7: the order of dispatch and of the results *)

Section OrderFacts.
Variable W : World.


End OrderFacts.



(** The same turn, computed: the analysis is entered before the lookup, and
    their results stand in that order, under the identifiers of their
    requests. *)
Example two_requests_in_one_turn :
  let st := (router_step
               (Samples.world_of
                  (Samples.generating [Samples.analyze_call; Samples.lookup_call]
                     "Sales rise in November."))
               {| messages := [user_message "which trends"]; log := [] |}).2 in
  messages st =
    [ user_message "which trends";
      MResp (ChatMessage None (Some [Samples.analyze_call; Samples.lookup_call]));
      tool_message "Sales rise in November." "call_2";
      tool_message
        ("Error accessing data: [Errno 2] No such file or directory: '"
         +:+ TRANSACTION_DATA_FILE_PATH +:+ "'")
        "call_1" ] /\
  invocations (log st) = ["analyze_sales_data"; "lookup_sales_data"].
Proof. vm_compute. split; reflexivity. Qed.

(** ** C8: the system-prompt check *)

Section SystemPromptFacts.

Lemma existsb_system_count msgs :
  existsb is_system msgs = false <-> system_count msgs = 0.
Proof.
  unfold system_count. induction msgs as [|m msgs IH]; [done|]. simpl.
  destruct (is_system m); simpl; [split; discriminate|done].
Qed.

Lemma system_count_app msgs1 msgs2 :
  system_count (msgs1 ++ msgs2) = system_count msgs1 + system_count msgs2.
Proof. unfold system_count. by rewrite List.filter_app, length_app. Qed.

Lemma with_system_prompt_absent msgs :
  system_count msgs = 0 ->
  with_system_prompt msgs = msgs ++ [system_message SYSTEM_PROMPT].
Proof.
  intros H%existsb_system_count. unfold with_system_prompt. by rewrite H.
Qed.

Lemma with_system_prompt_present msgs :
  system_count msgs <> 0 -> with_system_prompt msgs = msgs.
Proof.
  intros H. unfold with_system_prompt.
  destruct (existsb is_system msgs) eqn:E; [done|].
  by apply existsb_system_count in E.
Qed.

Lemma with_system_prompt_count msgs :
  system_count (with_system_prompt msgs) = Nat.max 1 (system_count msgs).
Proof.
  destruct (decide (system_count msgs = 0)) as [H|H].
  - rewrite with_system_prompt_absent, system_count_app, H by done. done.
  - rewrite with_system_prompt_present by done. lia.
Qed.

Lemma with_system_prompt_idempotent msgs :
  with_system_prompt (with_system_prompt msgs) = with_system_prompt msgs.
Proof.
  apply with_system_prompt_present. rewrite with_system_prompt_count. lia.
Qed.

Lemma ensure_times_once n st :
  ensure_times (S n) st = (ensure_system_prompt st).2.
Proof.
  unfold ensure_times. induction n as [|n IH]; [done|].
  rewrite Nat.iter_succ, IH, !ensure_system_prompt_unfold. simpl.
  by rewrite with_system_prompt_idempotent.
Qed.

End SystemPromptFacts.

(** C8 (as the code has it).  The check is idempotent: applied one or more
    times it gives what one application gives.  It appends the system prompt
    exactly when the list holds no system message, and otherwise leaves the
    store as it is; it never removes a message.  So the result holds exactly
    one system message whenever the list held at most one. *)
Theorem ensure_system_prompt_idempotent n st :
  ensure_times (S n) st = (ensure_system_prompt st).2 /\
  (system_count (messages st) = 0 ->
   messages (ensure_system_prompt st).2
   = messages st ++ [system_message SYSTEM_PROMPT]) /\
  (system_count (messages st) <> 0 -> (ensure_system_prompt st).2 = st) /\
  (system_count (messages st) <= 1 ->
   system_count (messages (ensure_times (S n) st)) = 1).
Proof.
  split_and!.
  - apply ensure_times_once.
  - intros H. rewrite ensure_system_prompt_unfold. simpl.
    by apply with_system_prompt_absent.
  - intros H. rewrite ensure_system_prompt_unfold. simpl.
    rewrite with_system_prompt_present by done. by destruct st.
  - intros H. rewrite ensure_times_once, ensure_system_prompt_unfold. simpl.
    rewrite with_system_prompt_count. lia.
Qed.

(** A list without a system message, and a list that starts with one. *)
Lemma ensure_system_prompt_idempotent_witness :
  ensure_times 3 {| messages := [user_message "total sales"]; log := [] |}
  = {| messages := [user_message "total sales"; system_message SYSTEM_PROMPT];
       log := [] |} /\
  system_count
    (messages
       (ensure_times 3 {| messages := [user_message "total sales"]; log := [] |}))
  = 1 /\
  (ensure_system_prompt
     {| messages := [system_message "Be brief."; user_message "total sales"];
        log := [] |}).2
  = {| messages := [system_message "Be brief."; user_message "total sales"];
       log := [] |}.
Proof.
  split_and!.
  - rewrite (proj1 (ensure_system_prompt_idempotent 2
               {| messages := [user_message "total sales"]; log := [] |})).
    vm_compute. reflexivity.
  - apply (proj2 (proj2 (proj2 (ensure_system_prompt_idempotent 2
             {| messages := [user_message "total sales"]; log := [] |})))).
    vm_compute. lia.
  - apply (proj1 (proj2 (proj2 (ensure_system_prompt_idempotent 0
             {| messages := [system_message "Be brief."; user_message "total sales"];
                log := [] |})))).
    vm_compute. discriminate.
Defined.

(** C8 (as the spec has it) fails for a list that already holds two system
    messages: the check adds none and removes none, so two remain however
    often it is applied. *)
Lemma two_system_messages_remain :
  system_count
    (messages
       (ensure_times 2
          {| messages := [system_message "Be brief."; system_message "Be kind."];
             log := [] |})) = 2.
Proof. vm_compute. reflexivity. Qed.

(** ** C9: a text or a list of messages *)

Section AnswerFacts.
Variable W : World.

(** When the loop returns, the conversation ends with the message of the
    engine's last response, which asks for nothing, and the value returned
    is its content. *)
Lemma router_loop_returned fuel st answer st' :
  router_loop W fuel st = (Returned answer, st') ->
  exists msg,
    last (messages st') = Some (MResp msg) /\
    content msg = answer /\
    requested msg = [].
Proof.
  revert st. induction fuel as [|fuel IH]; intros st; [done|].
  rewrite router_loop_unfold, router_step_unfold.
  destruct (chat_create W (log st) (messages st) (Some tools)) as [[cls text]|response];
    [done|].
  destruct (choices response) as [|msg others]; [done|].
  destruct (requested msg) as [|tc tcs] eqn:Hreq.
  - intros [= <- <-]. exists msg. cbn [answered messages]. by rewrite last_snoc.
  - destruct (handle_tool_calls W (tc :: tcs) (answered st msg)) as [[[]|e] st1];
      [apply IH|done].
Qed.

End AnswerFacts.

(** C9 (as the code has it).  [run_agent] takes a text or a list of
    messages.  A text is wrapped into the one-element list holding it as a
    user message, and from there on the call is the call on that list: same
    outcome, same conversation, same trace.  Whatever the input, a value
    that [run_agent] returns is the content of the engine's last message,
    which asks for nothing and closes the conversation: a text, or [None]
    when that message has no content.  Once the call has returned or raised,
    more rounds change nothing. *)
Theorem run_agent_text_or_messages W fuel query tr :
  initial_messages (Text query) = [user_message query] /\
  run_agent W fuel (Text query) tr
  = run_agent W fuel (Messages [user_message query]) tr /\
  (forall input answer st,
     run_agent W fuel input tr = (Returned answer, st) ->
     exists msg,
       last (messages st) = Some (MResp msg) /\
       content msg = answer /\
       requested msg = []) /\
  (forall input k,
     (run_agent W fuel input tr).1 <> Running ->
     run_agent W (fuel + k) input tr = run_agent W fuel input tr).
Proof.
  split_and!; [done..| |].
  - intros input answer st Hrun. by eapply router_loop_returned.
  - intros input k Hsettled. by apply router_loop_settled.
Qed.

(** A run that returns a text after one lookup, with three rounds allowed
    and with five. *)
Lemma run_agent_text_or_messages_witness :
  (exists msg,
     last
       (messages
          (run_agent
             (Samples.world_of
                (Samples.asking_once [Samples.lookup_call] "42 units"))
             3 (Messages [user_message "total sales"]) []).2)
     = Some (MResp msg) /\
     content msg = Some "42 units" /\
     requested msg = []) /\
  run_agent
    (Samples.world_of (Samples.asking_once [Samples.lookup_call] "42 units"))
    (3 + 2) (Text "total sales") []
  = run_agent
      (Samples.world_of (Samples.asking_once [Samples.lookup_call] "42 units"))
      3 (Text "total sales") [].
Proof.
  split.
  - apply (proj1 (proj2 (proj2 (run_agent_text_or_messages
             (Samples.world_of (Samples.asking_once [Samples.lookup_call] "42 units"))
             3 "total sales" [])))
             (Messages [user_message "total sales"])).
    vm_compute. reflexivity.
  - apply (proj2 (proj2 (proj2 (run_agent_text_or_messages
             (Samples.world_of (Samples.asking_once [Samples.lookup_call] "42 units"))
             3 "total sales" [])))
             (Text "total sales") 2).
    vm_compute. discriminate.
Defined.

(** C9 (as the spec has it) fails: when the engine's answer asks for nothing
    and has no content, [run_agent] returns [None], not a text, for the
    query given as a text and for the same query given as a list. *)
Lemma run_agent_returns_none :
  run_agent (Samples.world_of speechless) 3 (Text "total sales") []
  = (Returned None,
     {| messages :=
          [ user_message "total sales";
            system_message SYSTEM_PROMPT;
            MResp (ChatMessage None None) ];
        log :=
          [ EvCreate [user_message "total sales"; system_message SYSTEM_PROMPT]
              (Some tools) ] |}) /\
  (run_agent (Samples.world_of speechless) 3
     (Messages [user_message "total sales"]) []).1 = Returned None.
Proof. split; vm_compute; reflexivity. Qed.

(** ** C10: the fall-back of [extract_chart_config] *)

Section ChartFacts.
Variable W : World.

(** Reading a response that is not usable raises, and touches nothing. *)
Lemma read_chart_config_unusable response data :
  usable_config response = false ->
  exists e, forall tr, read_chart_config response data tr = (Raise e, tr).
Proof.
  unfold usable_config, read_chart_config, bind, first_of, getattr, raise, ret.
  destruct (parsed_choices response) as [|v rest]; [by eexists|].
  destruct v as [| | | | | | |cls attrs]; try by eexists.
  cbn [config_attributes forallb].
  destruct (attrs !! "chart_type"); [|by eexists].
  destruct (attrs !! "x_axis"); [|by eexists].
  destruct (attrs !! "y_axis"); [|by eexists].
  destruct (attrs !! "title"); [|by eexists].
  intros H. exfalso. revert H.
  rewrite !bool_decide_eq_true_2 by (by eexists). done.
Qed.

(** Reading a usable response gives the configuration it holds. *)
Lemma read_chart_config_usable response data tr :
  usable_config response = true ->
  exists cls attrs rest chart_type x_axis y_axis title,
    parsed_choices response = PObj cls attrs :: rest /\
    attrs !! "chart_type" = Some chart_type /\
    attrs !! "x_axis" = Some x_axis /\
    attrs !! "y_axis" = Some y_axis /\
    attrs !! "title" = Some title /\
    read_chart_config response data tr
    = (Ok (chart_config chart_type x_axis y_axis title data), tr).
Proof.
  unfold usable_config, read_chart_config, bind, first_of, getattr, raise, ret.
  destruct (parsed_choices response) as [|v rest]; [done|].
  destruct v as [| | | | | | |cls attrs]; try done.
  cbn [config_attributes forallb]. intros H.
  destruct (attrs !! "chart_type") as [chart_type|] eqn:E1; [|by vm_compute in H].
  destruct (attrs !! "x_axis") as [x_axis|] eqn:E2; [|by vm_compute in H].
  destruct (attrs !! "y_axis") as [y_axis|] eqn:E3; [|by vm_compute in H].
  destruct (attrs !! "title") as [title|] eqn:E4; [|by vm_compute in H].
  exists cls, attrs, rest, chart_type, x_axis, y_axis, title.
  by rewrite E1, E2, E3, E4.
Qed.

(** The call of [parse] stands outside the [try]: when it raises, so does
    [extract_chart_config]. *)
Lemma extract_chart_config_parse_raises data visualization_goal tr cls text :
  chat_parse W tr
    [user_message
       (CHART_CONFIGURATION_PROMPT (py_str W data) (py_str W visualization_goal))]
  = inl (cls, text) ->
  (extract_chart_config W data visualization_goal tr).1 = Raise (Raised cls text).
Proof.
  intros Hparse. unfold extract_chart_config, bind, external. by rewrite Hparse.
Qed.

End ChartFacts.

(** C10 (as the code has it).  When the structured call returns a response
    from which no chart configuration can be read (no choice, a content that
    is no instance, an instance that lacks one of the four attributes),
    [extract_chart_config] does not fail: it returns the default
    configuration, a line chart of [value] over [date] whose title is the
    visualization goal and whose data is the input data.  The structured
    call itself stands before the [try]: when it raises,
    [extract_chart_config] raises the same exception and returns no
    configuration. *)
Theorem extract_chart_config_falls_back W data visualization_goal tr :
  (forall response,
     chat_parse W tr
       [user_message
          (CHART_CONFIGURATION_PROMPT (py_str W data) (py_str W visualization_goal))]
     = inr response ->
     usable_config response = false ->
     extract_chart_config W data visualization_goal tr =
       (Ok (<["chart_type" := PStr "line"]>
           (<["x_axis" := PStr "date"]>
           (<["y_axis" := PStr "value"]>
           (<["title" := visualization_goal]>
           (<["data" := data]> ∅))))),
        tr ++ [EvParse
                 [user_message
                    (CHART_CONFIGURATION_PROMPT (py_str W data)
                       (py_str W visualization_goal))]])) /\
  (forall cls text,
     chat_parse W tr
       [user_message
          (CHART_CONFIGURATION_PROMPT (py_str W data) (py_str W visualization_goal))]
     = inl (cls, text) ->
     extract_chart_config W data visualization_goal tr =
       (Raise (Raised cls text),
        tr ++ [EvParse
                 [user_message
                    (CHART_CONFIGURATION_PROMPT (py_str W data)
                       (py_str W visualization_goal))]])).
Proof.
  split.
  - intros response Hparse Hunusable.
    destruct (read_chart_config_unusable response data Hunusable) as [e Hread].
    unfold extract_chart_config, bind, external, try_except.
    by rewrite Hparse, Hread.
  - intros cls text Hparse.
    unfold extract_chart_config, bind, external. by rewrite Hparse.
Qed.

(** A response whose content is the text of an empty object, and a
    structured call that raises. *)
Lemma extract_chart_config_falls_back_witness :
  extract_chart_config (Samples.world_of (Samples.answering "42 units"))
    (PStr "sku sales") (PStr "sales by sku") [] =
    (Ok (<["chart_type" := PStr "line"]>
        (<["x_axis" := PStr "date"]>
        (<["y_axis" := PStr "value"]>
        (<["title" := PStr "sales by sku"]>
        (<["data" := PStr "sku sales"]> ∅))))),
     [] ++ [EvParse
              [user_message
                 (CHART_CONFIGURATION_PROMPT
                    (py_str (Samples.world_of (Samples.answering "42 units"))
                       (PStr "sku sales"))
                    (py_str (Samples.world_of (Samples.answering "42 units"))
                       (PStr "sales by sku")))]]) /\
  extract_chart_config
    (with_parse_error (Samples.world_of (Samples.answering "42 units"))
       "ValidationError" "1 validation error for VisualizationConfig")
    (PStr "sku sales") (PStr "sales by sku") [] =
    (Raise (Raised "ValidationError" "1 validation error for VisualizationConfig"),
     [] ++ [EvParse
              [user_message
                 (CHART_CONFIGURATION_PROMPT
                    (py_str
                       (with_parse_error
                          (Samples.world_of (Samples.answering "42 units"))
                          "ValidationError"
                          "1 validation error for VisualizationConfig")
                       (PStr "sku sales"))
                    (py_str
                       (with_parse_error
                          (Samples.world_of (Samples.answering "42 units"))
                          "ValidationError"
                          "1 validation error for VisualizationConfig")
                       (PStr "sales by sku")))]]).
Proof.
  split.
  - apply (proj1 (extract_chart_config_falls_back
             (Samples.world_of (Samples.answering "42 units"))
             (PStr "sku sales") (PStr "sales by sku") [])
             (ParsedResponse [PStr "{}"])).
    + reflexivity.
    + reflexivity.
  - apply (proj2 (extract_chart_config_falls_back
             (with_parse_error (Samples.world_of (Samples.answering "42 units"))
                "ValidationError" "1 validation error for VisualizationConfig")
             (PStr "sku sales") (PStr "sales by sku") [])).
    reflexivity.
Defined.

(** C10 (as the spec has it) fails: when the client cannot turn the model's
    output into the response format and the structured call raises,
    [extract_chart_config] raises too and returns no default; so does
    [generate_visualization]. *)
Lemma extract_chart_config_raises_with_parse :
  extract_chart_config
    (with_parse_error (Samples.world_of (Samples.answering "42 units"))
       "ValidationError" "1 validation error for VisualizationConfig")
    (PStr "sku sales") (PStr "sales by sku") [] =
    (Raise (Raised "ValidationError" "1 validation error for VisualizationConfig"),
     [EvParse
        [user_message (CHART_CONFIGURATION_PROMPT "sku sales" "sales by sku")]]) /\
  (generate_visualization
     (with_parse_error (Samples.world_of (Samples.answering "42 units"))
        "ValidationError" "1 validation error for VisualizationConfig")
     (PStr "sku sales") (PStr "sales by sku") []).1
  = Raise (Raised "ValidationError" "1 validation error for VisualizationConfig").
Proof. split; vm_compute; reflexivity. Qed.

(** * Further properties of the tools and of the router *)

(** ** Fences and surrounding whitespace *)

Section StringFacts.

Lemma prefix_trans a b c :
  String.prefix a b = true -> String.prefix b c = true -> String.prefix a c = true.
Proof.
  revert b c. induction a as [|x a IH]; intros b c; [by destruct c|].
  destruct b as [|y b]; [done|]. destruct c as [|z c]; [done|]. simpl.
  destruct (ascii_dec x y) as [->|]; [|done].
  destruct (ascii_dec y z) as [->|]; [|done]. apply IH.
Qed.

Lemma contains_cons sub c s : contains sub s = true -> contains sub (String c s) = true.
Proof. intros H. cbn [contains]. rewrite H. apply orb_true_r. Qed.

Lemma contains_prefix sub p s :
  String.prefix p s = true -> contains sub p = true -> contains sub s = true.
Proof.
  revert s. induction p as [|c p IH]; intros s Hp Hc.
  - destruct sub; [by destruct s|]. by simpl in Hc.
  - destruct s as [|d s]; [done|]. simpl in Hp.
    destruct (ascii_dec c d) as [<-|]; [|done].
    cbn [contains] in Hc. apply orb_prop in Hc as [Hc|Hc].
    + cbn [contains]. erewrite prefix_trans; [done|exact Hc|].
      simpl. by destruct (ascii_dec c c).
    + apply contains_cons. by apply IH.
Qed.

Lemma lstrip_suffix sub s : contains sub (lstrip s) = true -> contains sub s = true.
Proof.
  induction s as [|c s IH]; [done|]. cbn [lstrip].
  destruct (isspace c); [|done]. intros H. by apply contains_cons, IH.
Qed.

Lemma prefix_refl s : String.prefix s s = true.
Proof. induction s as [|c s IH]; [done|]. simpl. by destruct (ascii_dec c c). Qed.

Lemma rstrip_prefix s : String.prefix (rstrip s) s = true.
Proof.
  induction s as [|c s IH]; [done|]. cbn [rstrip].
  destruct (rstrip s) as [|d r] eqn:E.
  - destruct (isspace c); [done|]. simpl. by destruct (ascii_dec c c).
  - simpl. destruct (ascii_dec c c); [|done]. exact IH.
Qed.

Lemma contains_strip sub s : contains sub (strip s) = true -> contains sub s = true.
Proof.
  unfold strip. intros H. apply lstrip_suffix.
  by apply (contains_prefix sub (rstrip (lstrip s))); [apply rstrip_prefix|].
Qed.

Lemma rstrip_idempotent s : rstrip (rstrip s) = rstrip s.
Proof.
  induction s as [|c s IH]; [done|]. cbn [rstrip].
  destruct (rstrip s) as [|d r] eqn:E.
  - destruct (isspace c) eqn:Ec; [done|]. simpl. by rewrite Ec.
  - cbn [rstrip]. cbn [rstrip] in IH. by rewrite IH.
Qed.

Lemma rstrip_head c s :
  isspace c = false -> exists t, rstrip (String c s) = String c t.
Proof.
  intros Hc. cbn [rstrip]. destruct (rstrip s); [rewrite Hc|]; eauto.
Qed.

Lemma lstrip_head s :
  lstrip s = EmptyString \/ exists c t, lstrip s = String c t /\ isspace c = false.
Proof.
  induction s as [|c s IH]; [by left|]. cbn [lstrip].
  destruct (isspace c) eqn:E; [done|]. right. eauto.
Qed.

Lemma strip_stripped s : lstrip (strip s) = strip s /\ rstrip (strip s) = strip s.
Proof.
  unfold strip. split; [|apply rstrip_idempotent].
  destruct (lstrip_head s) as [->|(c & t & -> & Hc)]; [done|].
  destruct (rstrip_head c t Hc) as [t' ->]. cbn [lstrip]. by rewrite Hc.
Qed.

Lemma replace_fence_head1 s :
  String.prefix "`" (replace_from fence "" 0 s) = true -> String.prefix "`" s = true.
Proof.
  destruct s as [|c s]; [done|]. cbn [replace_from].
  destruct (String.prefix fence (String c s)) eqn:E.
  - intros _. revert E. unfold fence. cbn [String.prefix].
    destruct (ascii_dec "`" c); [intros _; by destruct s|done].
  - cbn [String.prefix]. destruct (ascii_dec "`" c); [intros _; by destruct s|done].
Qed.

Lemma replace_fence_head2 s :
  String.prefix "``" (replace_from fence "" 0 s) = true -> String.prefix "``" s = true.
Proof.
  destruct s as [|c s]; [done|]. cbn [replace_from].
  destruct (String.prefix fence (String c s)) eqn:E.
  - intros _. revert E. unfold fence. cbn [String.prefix].
    destruct (ascii_dec "`" c); [|done].
    destruct s as [|d s]; [done|]. cbn [String.prefix].
    destruct (ascii_dec "`" d); [intros _; by destruct s|done].
  - cbn [String.prefix]. destruct (ascii_dec "`" c); [|done].
    apply replace_fence_head1.
Qed.

Lemma replace_from_no_fence s skip :
  contains fence (replace_from fence "" skip s) = false.
Proof.
  revert skip. induction s as [|c s IH]; intros skip; [done|].
  cbn [replace_from]. destruct skip as [|k]; [|apply IH].
  destruct (String.prefix fence (String c s)) eqn:E; [apply IH|].
  cbn [contains]. rewrite IH, orb_false_r.
  destruct (String.prefix fence (String c (replace_from fence "" 0 s))) eqn:E2; [|done].
  exfalso. pose proof (replace_fence_head2 s) as Hhead.
  revert E E2 Hhead. unfold fence. cbn [String.prefix].
  destruct (ascii_dec "`" c); [|done].
  intros E E2 Hhead. apply Hhead in E2. congruence.
Qed.

Lemma replace_no_fence s : contains fence (replace fence "" s) = false.
Proof. apply replace_from_no_fence. Qed.

End StringFacts.

(** ** The tools, one by one *)

(** X1.  Once the model has replied, [analyze_sales_data] returns a text
    that is never empty: the reply itself when it has text, and the sentence
    [No analysis could be generated] when the reply has no text or an empty
    one. *)
Theorem analyze_sales_data_answer W prompt data tr msg others :
  chat_create W tr (analysis_request W prompt data) None
    = inr (Response (msg :: others)) ->
  exists text,
    analyze_sales_data W prompt data tr
    = (Ok text, tr ++ [EvCreate (analysis_request W prompt data) None]) /\
    text <> EmptyString /\
    (content msg = None \/ content msg = Some EmptyString -> text = NO_ANALYSIS) /\
    (forall reply,
       content msg = Some reply -> reply <> EmptyString -> text = reply).
Proof.
  intros Hcreate.
  unfold analyze_sales_data, ask_model, chat_completions_create, bind, external,
    first_of, ret.
  fold (analysis_request W prompt data). rewrite Hcreate. cbn [choices].
  destruct (content msg) as [[|c reply]|]; eexists; (split; [reflexivity|]).
  - split_and!; [done|done|]. by intros reply [= <-].
  - split_and!; [done|by intros [|]|]. by intros ? [= <-].
  - split_and!; [done|done|done].
Qed.

(** The model replies with a text, and with none. *)
Lemma analyze_sales_data_answer_witness :
  (exists text,
     analyze_sales_data (Shop.world (Some "Sales rise in November.") [] "done")
       (PStr "which trends") (PStr "sku sales") []
     = (Ok text,
        [] ++ [EvCreate
                 (analysis_request
                    (Shop.world (Some "Sales rise in November.") [] "done")
                    (PStr "which trends") (PStr "sku sales")) None]) /\
     text <> EmptyString /\
     (Some "Sales rise in November." = None \/
      Some "Sales rise in November." = Some EmptyString -> text = NO_ANALYSIS) /\
     (forall reply,
        Some "Sales rise in November." = Some reply ->
        reply <> EmptyString -> text = reply)) /\
  (analyze_sales_data (Shop.world None [] "done")
     (PStr "which trends") (PStr "sku sales") []).1 = Ok NO_ANALYSIS.
Proof.
  split.
  - apply (analyze_sales_data_answer
             (Shop.world (Some "Sales rise in November.") [] "done")
             (PStr "which trends") (PStr "sku sales") []
             (ChatMessage (Some "Sales rise in November.") None) []).
    reflexivity.
  - destruct (analyze_sales_data_answer (Shop.world None [] "done")
                (PStr "which trends") (PStr "sku sales") []
                (ChatMessage None None) [] eq_refl)
      as (text & -> & _ & Hnone & _).
    simpl. f_equal. apply Hnone. by left.
Defined.


(** X3.  When the data file, the table and the model answer,
    [lookup_sales_data] goes by the model's reply.  A reply without text is
    reported as the text of the attribute error and no query is run.  A
    reply with text is stripped, then freed of its fences: the query that is
    run holds no fence, and the call returns the table the database gives,
    or the text of the error the database raises. *)
Theorem lookup_sales_data_runs_the_cleaned_reply W prompt tr df created msg others :
  read_parquet W tr TRANSACTION_DATA_FILE_PATH = inr df ->
  duckdb_sql W (tr ++ [EvReadParquet TRANSACTION_DATA_FILE_PATH]) create_statement
    = inr created ->
  chat_create W
    (tr ++ [EvReadParquet TRANSACTION_DATA_FILE_PATH; EvSql create_statement])
    (sql_request W prompt df) None
    = inr (Response (msg :: others)) ->
  (content msg = None ->
   lookup_sales_data W prompt tr
   = (Ok "Error accessing data: 'NoneType' object has no attribute 'strip'",
      asked_for_sql W prompt df tr)) /\
  (forall text,
     content msg = Some text ->
     contains fence (cleaned_query text) = false /\
     lookup_sales_data W prompt tr
     = (Ok match duckdb_sql W (asked_for_sql W prompt df tr) (cleaned_query text) with
           | inr table => table
           | inl (_, why) => "Error accessing data: " +:+ why
           end,
        asked_for_sql W prompt df tr ++ [EvSql (cleaned_query text)])).
Proof.
  intros Hread Hcreated Hmodel.
  assert (forall reply,
    content msg = reply ->
    lookup_sales_data W prompt tr =
    match reply with
    | None =>
        (Ok "Error accessing data: 'NoneType' object has no attribute 'strip'",
         asked_for_sql W prompt df tr)
    | Some text =>
        (Ok match duckdb_sql W (asked_for_sql W prompt df tr) (cleaned_query text) with
            | inr table => table
            | inl (_, why) => "Error accessing data: " +:+ why
            end,
         asked_for_sql W prompt df tr ++ [EvSql (cleaned_query text)])
    end) as Hcases.
  { intros reply Hreply.
    unfold lookup_sales_data, try_except, lookup_sales_data_try, generate_sql_query,
      ask_model, chat_completions_create, bind, external, first_of, str_method,
      raise, ret, asked_for_sql.
    cbv zeta.
    change ("CREATE TABLE IF NOT EXISTS " +:+ "sales" +:+ " AS SELECT * FROM df")
      with create_statement.
    rewrite Hread. cbn beta iota. rewrite Hcreated.
    fold (sql_request W prompt df). rewrite <- !app_assoc. cbn [app].
    rewrite Hmodel. cbn [choices]. rewrite Hreply.
    destruct reply as [text|]; [|done]. fold (cleaned_query text).
    replace (tr ++ [EvReadParquet TRANSACTION_DATA_FILE_PATH; EvSql create_statement;
                    EvCreate (sql_request W prompt df) None])
      with (asked_for_sql W prompt df tr) by done.
    by destruct (duckdb_sql W (asked_for_sql W prompt df tr) (cleaned_query text))
      as [[cls why]|table]. }
  split.
  - intros Hnone. by apply (Hcases None).
  - intros text Htext. split; [apply replace_no_fence|]. by apply (Hcases (Some text)).
Qed.

(** A reply in a fenced block: the fences go, the line breaks inside them
    stay, and the table comes back; and a reply without text. *)
Lemma lookup_sales_data_runs_the_cleaned_reply_witness :
  (contains fence (cleaned_query Shop.fenced_sql) = false /\
   lookup_sales_data (Shop.world (Some Shop.fenced_sql) [] "done")
     (PStr "total sales") []
   = (Ok Shop.table_text,
      asked_for_sql (Shop.world (Some Shop.fenced_sql) [] "done")
        (PStr "total sales") Shop.sales_frame []
      ++ [EvSql (nl +:+ "SELECT SUM(Qty_Sold) AS total FROM sales" +:+ nl)])) /\
  lookup_sales_data (Shop.world None [] "done") (PStr "total sales") []
  = (Ok "Error accessing data: 'NoneType' object has no attribute 'strip'",
     asked_for_sql (Shop.world None [] "done") (PStr "total sales")
       Shop.sales_frame []).
Proof.
  split.
  - apply (proj2 (lookup_sales_data_runs_the_cleaned_reply
             (Shop.world (Some Shop.fenced_sql) [] "done") (PStr "total sales") []
             Shop.sales_frame Shop.table_text
             (ChatMessage (Some Shop.fenced_sql) None) []
             eq_refl eq_refl eq_refl) Shop.fenced_sql).
    reflexivity.
  - apply (proj1 (lookup_sales_data_runs_the_cleaned_reply
             (Shop.world None [] "done") (PStr "total sales") []
             Shop.sales_frame Shop.table_text (ChatMessage None None) []
             eq_refl eq_refl eq_refl)).
    reflexivity.
Defined.

(** X4.  The code [create_chart] returns holds no fence and neither starts
    nor ends with white space. *)
Theorem create_chart_code_is_clean W config tr code tr' :
  create_chart W config tr = (Ok code, tr') ->
  contains fence code = false /\ lstrip code = code /\ rstrip code = code.
Proof.
  unfold create_chart, ask_model, chat_completions_create, bind, external,
    first_of, str_method, raise, ret.
  intros H. repeat case_match; simplify_eq.
  split; [|apply strip_stripped].
  match goal with
  | |- contains fence (strip ?t) = false =>
      destruct (contains fence (strip t)) eqn:E; [|done];
      apply contains_strip in E
  end.
  match type of E with
  | contains _ (replace_from _ _ _ ?u) = _ =>
      pose proof (replace_from_no_fence u 0) as Hnone
  end.
  unfold fence in *. congruence.
Qed.

Lemma create_chart_code_is_clean_witness :
  contains fence "df.plot()" = false /\
  lstrip "df.plot()" = "df.plot()" /\
  rstrip "df.plot()" = "df.plot()".
Proof.
  apply (create_chart_code_is_clean (Shop.world (Some Shop.fenced_code) [] "done")
           (default_chart_config (PStr "sku sales") (PStr "sales by sku")) []
           "df.plot()"
           [EvCreate
              (chart_request (Shop.world (Some Shop.fenced_code) [] "done")
                 (default_chart_config (PStr "sku sales") (PStr "sales by sku")))
              None]).
  vm_compute. reflexivity.
Defined.

(** X5.  When the model gives no text, [create_chart] raises
    [AttributeError], and so does [generate_visualization] once the
    structured call has returned: neither puts a default in place of the
    code, unlike [analyze_sales_data]. *)
Theorem generate_visualization_without_text W data visualization_goal tr response :
  model_is_silent W ->
  chat_parse W tr (config_request W data visualization_goal) = inr response ->
  (forall config tr1,
     (create_chart W config tr1).1 = Raise (AttributeError "NoneType" "replace")) /\
  (generate_visualization W data visualization_goal tr).1
  = Raise (AttributeError "NoneType" "replace").
Proof.
  intros Hsilent Hparse.
  assert (forall config tr1,
    (create_chart W config tr1).1 = Raise (AttributeError "NoneType" "replace"))
    as Hchart.
  { intros config tr1.
    unfold create_chart, ask_model, chat_completions_create, bind, external,
      first_of, str_method, raise, ret.
    destruct (Hsilent tr1 (chart_request W config)) as (msg & others & Hmsg & Hnone).
    unfold chart_request in Hmsg. rewrite Hmsg. cbn [choices]. by rewrite Hnone. }
  split; [done|].
  unfold generate_visualization, extract_chart_config, bind, external, try_except.
  unfold config_request in Hparse. rewrite Hparse.
  destruct (read_chart_config response data _) as [[config|e] tr1].
  - pose proof (Hchart config tr1) as H.
    by destruct (create_chart W config tr1) as [[code|e] tr2]; simplify_eq/=.
  - unfold ret. pose proof (Hchart (default_chart_config data visualization_goal) tr1) as H.
    by destruct (create_chart W _ tr1) as [[code|e'] tr2]; simplify_eq/=.
Qed.

Lemma generate_visualization_without_text_witness :
  (forall config tr1,
     (create_chart (Shop.world None [Shop.bar_chart] "done") config tr1).1
     = Raise (AttributeError "NoneType" "replace")) /\
  (generate_visualization (Shop.world None [Shop.bar_chart] "done")
     (PStr "sku sales") (PStr "sales by sku") []).1
  = Raise (AttributeError "NoneType" "replace").
Proof.
  apply (generate_visualization_without_text
           (Shop.world None [Shop.bar_chart] "done")
           (PStr "sku sales") (PStr "sales by sku") []
           (ParsedResponse [Shop.bar_chart])).
  - intros tr msgs. by exists (ChatMessage None None), [].
  - reflexivity.
Defined.

(** X6.  Whatever the structured call returns, [extract_chart_config]
    returns a configuration with exactly the five keys [chart_type],
    [x_axis], [y_axis], [title] and [data], and its [data] is the data it
    was given, unchanged. *)
Theorem extract_chart_config_shape W data visualization_goal tr response :
  chat_parse W tr (config_request W data visualization_goal) = inr response ->
  exists config,
    extract_chart_config W data visualization_goal tr
    = (Ok config, tr ++ [EvParse (config_request W data visualization_goal)]) /\
    dom config = list_to_set ("data" :: config_attributes) /\
    config !! "data" = Some data.
Proof.
  intros Hparse.
  unfold extract_chart_config, bind, external, try_except.
  fold (config_request W data visualization_goal). rewrite Hparse.
  destruct (usable_config response) eqn:Husable.
  - destruct (read_chart_config_usable response data
                (tr ++ [EvParse (config_request W data visualization_goal)]) Husable)
      as (cls & attrs & rest & a & b & c & d & _ & _ & _ & _ & _ & ->).
    eexists. split; [done|]. unfold chart_config. split; [|done].
    rewrite !dom_insert_L, dom_empty_L. set_solver.
  - destruct (read_chart_config_unusable response data Husable) as [e ->].
    eexists. split; [done|]. unfold default_chart_config, chart_config.
    split; [|done]. rewrite !dom_insert_L, dom_empty_L. set_solver.
Qed.

Lemma extract_chart_config_shape_witness :
  exists config,
    extract_chart_config (Shop.world None [Shop.bar_chart] "done")
      (PStr "sku sales") (PStr "sales by sku") []
    = (Ok config,
       [] ++ [EvParse (config_request (Shop.world None [Shop.bar_chart] "done")
                         (PStr "sku sales") (PStr "sales by sku"))]) /\
    dom config = list_to_set ("data" :: config_attributes) /\
    config !! "data" = Some (PStr "sku sales").
Proof.
  apply (extract_chart_config_shape (Shop.world None [Shop.bar_chart] "done")
           (PStr "sku sales") (PStr "sales by sku") []
           (ParsedResponse [Shop.bar_chart])).
  reflexivity.
Defined.

(** X7.  When the content of the first choice is an instance that has the
    four attributes, [extract_chart_config] returns their values as they
    are, whatever their types; other attributes and other choices are not
    looked at. *)
Theorem extract_chart_config_reads_the_attributes
    W data visualization_goal tr cls attrs rest chart_type x_axis y_axis title :
  chat_parse W tr (config_request W data visualization_goal)
    = inr (ParsedResponse (PObj cls attrs :: rest)) ->
  attrs !! "chart_type" = Some chart_type ->
  attrs !! "x_axis" = Some x_axis ->
  attrs !! "y_axis" = Some y_axis ->
  attrs !! "title" = Some title ->
  extract_chart_config W data visualization_goal tr
  = (Ok (<["chart_type" := chart_type]>
        (<["x_axis" := x_axis]>
        (<["y_axis" := y_axis]>
        (<["title" := title]>
        (<["data" := data]> ∅))))),
     tr ++ [EvParse (config_request W data visualization_goal)]).
Proof.
  intros Hparse H1 H2 H3 H4.
  unfold extract_chart_config, read_chart_config, try_except, bind, external,
    first_of, getattr, ret.
  fold (config_request W data visualization_goal). rewrite Hparse.
  cbn [parsed_choices]. by rewrite H1, H2, H3, H4.
Qed.

Lemma extract_chart_config_reads_the_attributes_witness :
  extract_chart_config (Shop.world None [Shop.bar_chart; PNone] "done")
    (PStr "sku sales") (PStr "sales by sku") []
  = (Ok (<["chart_type" := PStr "bar"]>
        (<["x_axis" := PStr "Store_Number"]>
        (<["y_axis" := PStr "Qty_Sold"]>
        (<["title" := PStr "Sales by store"]>
        (<["data" := PStr "sku sales"]> ∅))))),
     [] ++ [EvParse (config_request (Shop.world None [Shop.bar_chart; PNone] "done")
                       (PStr "sku sales") (PStr "sales by sku"))]).
Proof.
  apply (extract_chart_config_reads_the_attributes
           (Shop.world None [Shop.bar_chart; PNone] "done")
           (PStr "sku sales") (PStr "sales by sku") []
           "VisualizationConfig"
           (<["chart_type" := PStr "bar"]>
           (<["x_axis" := PStr "Store_Number"]>
           (<["y_axis" := PStr "Qty_Sold"]>
           (<["title" := PStr "Sales by store"]> ∅))))
           [PNone]).
  - reflexivity.
  - reflexivity.
  - reflexivity.
  - reflexivity.
  - reflexivity.
Defined.

(** X8.  A structured response from which no configuration can be read does
    not stop [generate_visualization]: it goes on to [create_chart] with the
    default configuration, and returns or raises as [create_chart] does. *)
Theorem generate_visualization_uses_the_default W data visualization_goal tr response :
  chat_parse W tr (config_request W data visualization_goal) = inr response ->
  usable_config response = false ->
  generate_visualization W data visualization_goal tr
  = create_chart W (default_chart_config data visualization_goal)
      (tr ++ [EvParse (config_request W data visualization_goal)]).
Proof.
  intros Hparse Hunusable.
  destruct (read_chart_config_unusable response data Hunusable) as [e Hread].
  unfold generate_visualization, extract_chart_config, bind, external, try_except.
  fold (config_request W data visualization_goal). rewrite Hparse, Hread.
  unfold ret.
  by destruct (create_chart W _ _) as [[code|e'] tr'].
Qed.

Lemma generate_visualization_uses_the_default_witness :
  generate_visualization (Shop.world (Some Shop.fenced_code) [PStr "{}"] "done")
    (PStr "sku sales") (PStr "sales by sku") []
  = create_chart (Shop.world (Some Shop.fenced_code) [PStr "{}"] "done")
      (default_chart_config (PStr "sku sales") (PStr "sales by sku"))
      ([] ++ [EvParse
                (config_request
                   (Shop.world (Some Shop.fenced_code) [PStr "{}"] "done")
                   (PStr "sku sales") (PStr "sales by sku"))]).
Proof.
  apply (generate_visualization_uses_the_default
           (Shop.world (Some Shop.fenced_code) [PStr "{}"] "done")
           (PStr "sku sales") (PStr "sales by sku") []
           (ParsedResponse [PStr "{}"])).
  - reflexivity.
  - reflexivity.
Defined.

(** The same call, computed: the prompt of [create_chart] carries the
    default configuration, and the code comes back without its fences. *)
Example visualization_from_the_default :
  generate_visualization (Shop.world (Some Shop.fenced_code) [PStr "{}"] "done")
    (PStr "sku sales") (PStr "sales by sku") []
  = (Ok "df.plot()",
     [ EvParse
         [user_message
            (CHART_CONFIGURATION_PROMPT "sku sales" "sales by sku")];
       EvCreate
         [user_message
            (CREATE_CHART_PROMPT
               "{'chart_type': 'line', 'x_axis': 'date', 'y_axis': 'value', 'title': 'sales by sku', 'data': 'sku sales'}")]
         None ]).
Proof. vm_compute. reflexivity. Qed.

(** ** The registry and the declared tools *)

(** X9.  The registry and the list [tools] agree.  The names the registry
    resolves are the declared names; and for a declared tool, a request
    whose payload is an object with exactly the required properties always
    enters the function: it meets neither [KeyError] nor [TypeError], since
    the parameters of the function are the required properties, which are
    all the declared properties. *)
Theorem declared_requests_are_entered W :
  (forall k, is_Some (tool_implementations W !! k) <-> k ∈ map spec_name tools) /\
  (forall tc st spec kw,
     spec ∈ tools ->
     name (function tc) = spec_name spec ->
     json_loads W (arguments (function tc)) = inr (PDict kw) ->
     dom kw = list_to_set (spec_required spec) ->
     exists fn,
       tool_implementations W !! spec_name spec = Some fn /\
       list_to_set (fn_params fn) =@{gset string} list_to_set (spec_required spec) /\
       list_to_set (spec_properties spec).*1
         =@{gset string} list_to_set (spec_required spec) /\
       handle_tool_call W tc st =
       match fn_body fn kw (log st ++ [EvInvoke (spec_name spec) kw]) with
       | (Ok result, tr) =>
           (Ok tt, {| messages := messages st ++ [tool_message result (call_id tc)];
                      log := tr |})
       | (Raise e, tr) => (Raise e, {| messages := messages st; log := tr |})
       end).
Proof.
  split; [apply registry_declared|].
  intros tc st spec kw Hspec Hname Hjson Hdom.
  assert (exists fn,
    tool_implementations W !! spec_name spec = Some fn /\
    fn_name fn = spec_name spec /\
    list_to_set (fn_params fn) =@{gset string} list_to_set (spec_required spec) /\
    list_to_set (spec_properties spec).*1
      =@{gset string} list_to_set (spec_required spec)) as (fn & Hfn & Hfname & Hparams & Hprops).
  { unfold tools in Hspec.
    repeat (apply elem_of_cons in Hspec as [->|Hspec];
            [eexists; split; [reflexivity|]; split_and!; [done|set_solver..]|]).
    by apply elem_of_nil in Hspec. }
  exists fn. split_and!; [done..|].
  rewrite handle_tool_call_unfold, Hname, Hfn, Hjson, call_kwargs_unfold, Hfname.
  rewrite bool_decide_eq_true_2; [done|]. by rewrite Hdom, Hparams.
Qed.

(** The analysis, asked for with its two required properties. *)
Lemma declared_requests_are_entered_witness :
  exists fn,
    tool_implementations (Shop.world (Some "Sales rise in November.") [] "done")
      !! "analyze_sales_data" = Some fn /\
    list_to_set (fn_params fn) =@{gset string} list_to_set ["data"; "prompt"] /\
    list_to_set [("data", "string"); ("prompt", "string")].*1
      =@{gset string} list_to_set ["data"; "prompt"] /\
    handle_tool_call (Shop.world (Some "Sales rise in November.") [] "done")
      Samples.analyze_call {| messages := []; log := [] |} =
    match fn_body fn
            (Samples.args_of [("prompt", "which trends"); ("data", "sku sales")])
            ([] ++ [EvInvoke "analyze_sales_data"
                      (Samples.args_of
                         [("prompt", "which trends"); ("data", "sku sales")])]) with
    | (Ok result, tr) =>
        (Ok tt, {| messages := [] ++ [tool_message result "call_2"]; log := tr |})
    | (Raise e, tr) => (Raise e, {| messages := []; log := tr |})
    end.
Proof.
  apply (proj2 (declared_requests_are_entered
           (Shop.world (Some "Sales rise in November.") [] "done"))
           Samples.analyze_call {| messages := []; log := [] |}
           (ToolSpec "analyze_sales_data" "Analyze sales data to extract insights"
              [("data", "string"); ("prompt", "string")] ["data"; "prompt"])
           (Samples.args_of [("prompt", "which trends"); ("data", "sku sales")])).
  - unfold tools. set_solver.
  - reflexivity.
  - vm_compute. reflexivity.
  - vm_compute. reflexivity.
Defined.

(** ** The conversation a run builds *)

Section RoundFacts.
Variable W : World.

Lemma router_loop_rounds fuel st :
  exists added,
    messages (router_loop W fuel st).2 = messages st ++ added /\ rounds added.
Proof.
  revert st. induction fuel as [|fuel IH]; intros st.
  { exists []. split; [by rewrite app_nil_r|constructor]. }
  rewrite router_loop_unfold, router_step_unfold.
  destruct (chat_create W (log st) (messages st) (Some tools)) as [[cls text]|response].
  { exists []. split; [by rewrite app_nil_r|constructor]. }
  destruct (choices response) as [|msg others].
  { exists []. split; [by rewrite app_nil_r|constructor]. }
  destruct (handle_tool_calls_spec W (requested msg) (answered st msg))
    as (results & n & Hmsgs & _ & _ & Hn & Hlen & _).
  destruct (requested msg) as [|tc tcs] eqn:Hreq.
  { exists [MResp msg]. split; [done|].
    pose proof (rounds_last msg []) as Hlast. rewrite Hreq in Hlast.
    apply Hlast. simpl. lia. }
  destruct (handle_tool_calls W (tc :: tcs) (answered st msg)) as [[[]|e] st'];
    simpl in Hmsgs, Hlen.
  - destruct (IH st') as (added & -> & Hadded). rewrite Hmsgs.
    exists (MResp msg :: result_messages (tc :: tcs) results ++ added).
    split; [by rewrite <- !app_assoc|].
    rewrite <- Hreq. apply rounds_more; [|done]. rewrite Hreq. by apply Hlen.
  - exists (MResp msg :: result_messages (tc :: tcs) results).
    cbn [snd]. rewrite Hmsgs. split; [by rewrite <- !app_assoc|].
    rewrite <- Hreq. apply rounds_last. rewrite Hreq. simpl in *. lia.
Qed.

Lemma router_loop_engine_calls fuel st :
  engine_calls (log st) <= engine_calls (log (router_loop W fuel st).2)
    <= engine_calls (log st) + fuel /\
  ((router_loop W fuel st).1 = Running ->
   engine_calls (log (router_loop W fuel st).2) = engine_calls (log st) + fuel).
Proof.
  revert st. induction fuel as [|fuel IH]; intros st.
  { simpl. split; [lia|intros _; lia]. }
  rewrite router_loop_unfold, router_step_unfold.
  assert (engine_calls (log st ++ [EvCreate (messages st) (Some tools)])
          = engine_calls (log st) + 1) as Hone
    by (by rewrite engine_calls_app).
  destruct (chat_create W (log st) (messages st) (Some tools)) as [[cls text]|response].
  { cbn [fst snd log]. rewrite Hone. split; [lia|done]. }
  destruct (choices response) as [|msg others].
  { cbn [fst snd log]. rewrite Hone. split; [lia|done]. }
  destruct (handle_tool_calls_spec W (requested msg) (answered st msg))
    as (results & n & _ & _ & Hcalls & _).
  destruct (requested msg) as [|tc tcs].
  { cbn [fst snd log answered]. rewrite Hone. split; [lia|done]. }
  destruct (handle_tool_calls W (tc :: tcs) (answered st msg)) as [[[]|e] st'];
    cbn [snd answered log] in Hcalls; rewrite Hone in Hcalls.
  - destruct (IH st') as [Hbound Hrun]. split; [lia|].
    intros Hrunning%Hrun. lia.
  - cbn [fst snd]. split; [lia|done].
Qed.

End RoundFacts.

(** X10.  The conversation after any number of rounds is the list the loop
    started from, system prompt included, followed by rounds: each round is
    the message of the engine followed by the capability-result messages of
    its requests, in the order of the requests and under their identifiers.
    Every round but the last holds the results of all its requests. *)
Theorem run_agent_builds_rounds W fuel input tr :
  exists added,
    messages (run_agent W fuel input tr).2
    = with_system_prompt (initial_messages input) ++ added /\
    rounds added.
Proof.
  unfold run_agent. rewrite ensure_system_prompt_unfold.
  apply (router_loop_rounds W fuel
           {| messages := with_system_prompt (initial_messages input); log := tr |}).
Qed.

(** X11.  Every round calls the engine once and the tools never call it:
    after [fuel] rounds at most [fuel] engine calls have been made, and
    exactly [fuel] when the loop is still running. *)
Theorem run_agent_calls_the_engine_once_a_round W fuel input tr :
  engine_calls tr <= engine_calls (log (run_agent W fuel input tr).2)
    <= engine_calls tr + fuel /\
  ((run_agent W fuel input tr).1 = Running ->
   engine_calls (log (run_agent W fuel input tr).2) = engine_calls tr + fuel).
Proof.
  unfold run_agent. rewrite ensure_system_prompt_unfold.
  apply (router_loop_engine_calls W fuel
           {| messages := with_system_prompt (initial_messages input); log := tr |}).
Qed.

(** ** Failures of the engine *)

(** X12.  [run_agent] does not guard its call to the engine.  When the call
    raises, in whichever round, [run_agent] ends with that exception; when
    the response has no choice it ends with [IndexError].  The call is not
    made again and the conversation is left as it was before the call. *)
Theorem engine_failure_ends_the_run W fuel st :
  (forall cls text,
     chat_create W (log st) (messages st) (Some tools) = inl (cls, text) ->
     router_loop W (S fuel) st
     = (Failed (Raised cls text),
        {| messages := messages st;
           log := log st ++ [EvCreate (messages st) (Some tools)] |})) /\
  (chat_create W (log st) (messages st) (Some tools) = inr (Response []) ->
   router_loop W (S fuel) st
   = (Failed IndexError,
      {| messages := messages st;
         log := log st ++ [EvCreate (messages st) (Some tools)] |})).
Proof.
  split.
  - intros cls text Hcreate. by rewrite router_loop_unfold, router_step_unfold, Hcreate.
  - intros Hcreate. by rewrite router_loop_unfold, router_step_unfold, Hcreate.
Qed.

Lemma engine_failure_ends_the_run_witness :
  run_agent (Samples.world_of unreachable) 5 (Text "total sales") []
  = (Failed (Raised "APIConnectionError" "Connection error."),
     {| messages := [user_message "total sales"; system_message SYSTEM_PROMPT];
        log := [] ++ [EvCreate
                        [user_message "total sales"; system_message SYSTEM_PROMPT]
                        (Some tools)] |}) /\
  run_agent (Samples.world_of choiceless) 5 (Text "total sales") []
  = (Failed IndexError,
     {| messages := [user_message "total sales"; system_message SYSTEM_PROMPT];
        log := [] ++ [EvCreate
                        [user_message "total sales"; system_message SYSTEM_PROMPT]
                        (Some tools)] |}).
Proof.
  split.
  - apply (proj1 (engine_failure_ends_the_run (Samples.world_of unreachable) 4
             {| messages := [user_message "total sales"; system_message SYSTEM_PROMPT];
                log := [] |})).
    reflexivity.
  - apply (proj2 (engine_failure_ends_the_run (Samples.world_of choiceless) 4
             {| messages := [user_message "total sales"; system_message SYSTEM_PROMPT];
                log := [] |})).
    reflexivity.
Defined.

(** ** What the tools leave alone *)

(** X13.  A function of the registry talks to the outside only: whatever its
    arguments, it makes no router call (no call of [create] with [tools]
    declared) and enters no function through the registry, and it only adds
    to the trace of the calls made before it. *)
Theorem registered_functions_stay_inside W k fn kw tr :
  tool_implementations W !! k = Some fn ->
  tr `prefix_of` (fn_body fn kw tr).2 /\
  engine_calls (fn_body fn kw tr).2 = engine_calls tr /\
  invocations (fn_body fn kw tr).2 = invocations tr.
Proof.
  intros Hfn. apply registry_lookup in Hfn as (_ & _ & Hsilent).
  destruct (Hsilent kw tr) as (evs & -> & Hevs).
  rewrite engine_calls_app, invocations_app.
  rewrite (engine_calls_internal evs Hevs), (invocations_internal evs Hevs).
  split_and!; [by apply prefix_app_r | lia | by rewrite app_nil_r].
Qed.

Lemma registered_functions_stay_inside_witness :
  [] `prefix_of`
    (generate_visualization (Shop.world (Some Shop.fenced_code) [Shop.bar_chart] "done")
       (kwarg Shop.visualization_args "data")
       (kwarg Shop.visualization_args "visualization_goal") []).2 /\
  engine_calls
    (generate_visualization (Shop.world (Some Shop.fenced_code) [Shop.bar_chart] "done")
       (kwarg Shop.visualization_args "data")
       (kwarg Shop.visualization_args "visualization_goal") []).2
  = engine_calls [] /\
  invocations
    (generate_visualization (Shop.world (Some Shop.fenced_code) [Shop.bar_chart] "done")
       (kwarg Shop.visualization_args "data")
       (kwarg Shop.visualization_args "visualization_goal") []).2
  = invocations [].
Proof.
  apply (registered_functions_stay_inside
           (Shop.world (Some Shop.fenced_code) [Shop.bar_chart] "done")
           "generate_visualization"
           (PyFunction "generate_visualization" ["data"; "visualization_goal"]
              (fun kw =>
                 generate_visualization
                   (Shop.world (Some Shop.fenced_code) [Shop.bar_chart] "done")
                   (kwarg kw "data") (kwarg kw "visualization_goal")))
           Shop.visualization_args []).
  reflexivity.
Defined.
